(** * Credential validation system: a shallow embedding of
      [Credential_System.py] and the properties of its specification.

    The program keeps, per university, a pandas [DataFrame] of student
    rows indexed by [student_id], and a central [ValidationSystem] with a
    FIFO queue of requests, two counters and a history frame.

    Conventions of the embedding.
    - A [DataFrame] is the list of its rows, in row order.  After
      [set_index('student_id', drop=False)] the index label of a row is
      its [student_id] cell, so the index is not stored separately.
    - A cell that pandas fills with NaN because a key was absent is
      [None].
    - Python exceptions are the [Raise] branch of [result];
      [try ... except Exception] is [try_except].
    - [datetime.now()] is an explicit argument ([today]).  The values
      read from [time.time()] are not kept (the columns [timestamp] and
      [processing_time] of the history are left out); the one place where
      they decide what the program does, the division by the elapsed time
      of a processing round, asks the runtime whether the two reads
      around that round returned the same value ([elapsed_zero]).
    - Console output is not part of the state; where a printed number is
      computed by an expression that can raise, the expression is kept.
    - CSV and Excel files are outside the model: a [University] is
      created with no file on disk, and the Excel writer succeeds or
      fails according to an explicit argument.
    - Regular expressions ([re], behind [str.contains]) are an interface
      of their own, [PyRegex]; of the files only the default paths are
      modelled.
    - pandas is taken at its documented behaviour for the 2.x series the
      program was written against: [concat] ignores a frame that is empty
      or holds only NaN when it determines a column type, [loc] with a
      repeated label returns a frame, [nlargest] refuses a column that is
      not numeric, keeps first occurrences when it selects fewer rows
      than the frame has and otherwise sorts the whole column with
      NumPy's quicksort, whose order of equal values is not fixed. *)

From Stdlib Require Import ZArith QArith.QArith_base List Lia Ascii.
From stdpp Require Import base option list strings gmap sorting.

Local Open Scope string_scope.
Local Open Scope list_scope.
Local Open Scope Z_scope.

(** ** Exceptions *)

Inductive exn : Type :=
| TypeError
| ValueError
| KeyError
| ZeroDivisionError
| OSError.

Inductive result (A : Type) : Type :=
| Ok (a : A)
| Raise (e : exn).

Arguments Ok {A} a.
Arguments Raise {A} e.

#[export] Instance result_ret : MRet result := fun A a => Ok a.

#[export] Instance result_bind : MBind result := fun A B f m =>
  match m with
  | Ok a => f a
  | Raise e => Raise e
  end.

(** [try: body except Exception as e: handler e] *)
Definition try_except {A : Type} (body : result A) (handler : exn -> A) : A :=
  match body with
  | Ok a => a
  | Raise e => handler e
  end.

Definition raises {A : Type} (r : result A) : Prop :=
  exists e, r = Raise e.

(** [mapM] for [result], left to right, stopping at the first exception. *)
Fixpoint result_mapM {A B : Type} (f : A -> result B) (l : list A) : result (list B) :=
  match l with
  | [] => Ok []
  | a :: l' =>
      b ← f a;
      bs ← result_mapM f l';
      Ok (b :: bs)
  end.

(** ** The numeric runtime

    What the program takes from Python and NumPy and never defines
    itself: the values a caller may pass as [cgpa] and
    [graduation_year], the float64 values of the [cgpa] column, the
    builtins [float()] and [int()], the element conversions behind
    [Series.astype(float)] and [Series.astype(int)], NaN and the
    comparison of float64 values.

    [quicksort_desc key l] is [l] as [sort_values(ascending=False)]
    orders it by [key] with the default [kind='quicksort'], for keys
    that are not NaN; where it puts equal keys is NumPy's business.
    [elapsed_zero k] tells whether the two reads of [time.time()] before
    and after the processing round that starts with [k] rows in the
    history return the same value. *)

Class PyRuntime : Type := {
  pyobj : Type;
  float64 : Type;
  py_float : pyobj -> result float64;
  py_int : pyobj -> result Z;
  np_float : pyobj -> result float64;
  np_int : pyobj -> result Z;
  nan : float64;
  isnan : float64 -> bool;
  float_leb : float64 -> float64 -> bool;
  quicksort_desc : forall A : Type, (A -> float64) -> list A -> list A;
  elapsed_zero : Z -> bool
}.

(** [a / b] on Python ints, kept as the pair of its operands. *)
Inductive pynum : Type :=
| PInt (z : Z)
| PQuot (a b : Z)
| PTimes100 (x : pynum)
| PRound2 (x : pynum).

Definition py_truediv (a b : Z) : result pynum :=
  if b =? 0 then Raise ZeroDivisionError else Ok (PQuot a b).

Section Model.

Context `{RT : PyRuntime}.

(** ** Student rows and the university store *)

Record student_row : Type := {
  student_id : option string;
  name : option string;
  university : string;
  degree : option string;
  cgpa : float64;
  graduation_year : Z;
  enrollment_date : string
}.

(** The dictionary [verify_student] returns has the seven keys of a row
    and the row's values. *)
Definition credential : Type := student_row.

Record University : Type := {
  uni_name : string;
  students_df : list student_row
}.

Definition set_students_df (self : University) (df : list student_row) : University :=
  {| uni_name := uni_name self; students_df := df |}.

(** [University(name)] with no CSV file on disk: an empty frame with the
    seven columns. *)
Definition University_init (nm : string) : University :=
  {| uni_name := nm; students_df := [] |}.

(** [df.empty] on a frame, [not q] on a deque *)
Definition is_empty {A : Type} (df : list A) : bool :=
  match df with
  | [] => true
  | _ :: _ => false
  end.

Definition add_student (self : University) (sid nm deg : string)
    (cg yr : pyobj) (today : string) : University * bool :=
  try_except
    (c ← py_float cg;
     y ← py_int yr;
     let new_student :=
       [ {| student_id := Some sid;
            name := Some nm;
            university := uni_name self;
            degree := Some deg;
            cgpa := c;
            graduation_year := y;
            enrollment_date := today |} ] in
     Ok (set_students_df self (students_df self ++ new_student), true))
    (fun _ => (self, false)).

(** One dictionary of the list given to [add_students_bulk], seen
    through the five keys the method relies on; [None] is an absent
    key. *)
Record student_dict : Type := {
  d_student_id : option string;
  d_name : option string;
  d_degree : option string;
  d_cgpa : option pyobj;
  d_graduation_year : option pyobj
}.

Definition absent {A : Type} (c : option A) : bool :=
  match c with
  | None => true
  | Some _ => false
  end.

(** [pd.DataFrame(students_list)[key]]: the frame has the union of the
    keys as columns, NaN where a dictionary lacks the key, and a column
    no dictionary mentions does not exist. *)
Definition getitem {A : Type} (key : student_dict -> option A)
    (students_list : list student_dict) : result (list (option A)) :=
  if forallb (fun d => absent (key d)) students_list
  then Raise KeyError
  else Ok (map key students_list).

Definition astype_float (col : list (option pyobj)) : result (list float64) :=
  result_mapM (fun c => match c with
                        | None => Ok nan
                        | Some o => np_float o
                        end) col.

(** NaN cannot be converted to an integer. *)
Definition astype_int (col : list (option pyobj)) : result (list Z) :=
  result_mapM (fun c => match c with
                        | None => Raise ValueError
                        | Some o => np_int o
                        end) col.

Fixpoint assemble (uni today : string) (students_list : list student_dict)
    (cgpas : list float64) (years : list Z) : list student_row :=
  match students_list, cgpas, years with
  | d :: ds, c :: cs, y :: ys =>
      {| student_id := d_student_id d;
         name := d_name d;
         university := uni;
         degree := d_degree d;
         cgpa := c;
         graduation_year := y;
         enrollment_date := today |} :: assemble uni today ds cs ys
  | _, _, _ => []
  end.

Definition add_students_bulk (self : University)
    (students_list : list student_dict) (today : string) : University * bool :=
  try_except
    (cgpa_col ← getitem d_cgpa students_list;
     cgpas ← astype_float cgpa_col;
     year_col ← getitem d_graduation_year students_list;
     years ← astype_int year_col;
     _ ← getitem d_student_id students_list;
     let new_df := assemble (uni_name self) today students_list cgpas years in
     Ok (set_students_df self (students_df self ++ new_df), true))
    (fun _ => (self, false)).

(** [student_id in df.index] *)
Definition index_contains (df : list student_row) (sid : string) : bool :=
  bool_decide (Some sid ∈ map student_id df).

(** [df.loc[label]]: a row (a Series) when the label occurs once, a
    frame when it is repeated. *)
Inductive loc_result : Type :=
| LocSeries (r : student_row)
| LocFrame (rs : list student_row).

Definition loc (df : list student_row) (sid : string) : result loc_result :=
  match filter (fun r => student_id r = Some sid) df with
  | [] => Raise KeyError
  | [r] => Ok (LocSeries r)
  | rs => Ok (LocFrame rs)
  end.

(** Building the dictionary applies [int(...)] to the
    [graduation_year] entry; on a frame that entry is a Series of two or
    more values, and [int] of such a Series is a [TypeError]. *)
Definition verify_student (self : University) (sid : string) : option credential :=
  try_except
    (if index_contains (students_df self) sid then
       student_data ← loc (students_df self) sid;
       match student_data with
       | LocSeries r => Ok (Some r)
       | LocFrame _ => Raise TypeError
       end
     else Ok None)
    (fun _ => None).

(** ** Top students

    A frame built with [pd.DataFrame(columns=[...])] has columns of
    type [object].  [add_student] and [add_students_bulk] concatenate
    rows whose [cgpa] is float64, and [concat] leaves out of the choice
    of the column type every frame that is empty or whose [cgpa] cells
    are all NaN: the column stays [object] as long as no row has a
    [cgpa] that is a number, and is [float64] from then on. *)

Inductive dtype : Type :=
| dt_object
| dt_float64.

Definition cgpa_isnan (r : student_row) : bool := isnan (cgpa r).
Definition cgpa_notnan (r : student_row) : bool := negb (isnan (cgpa r)).

Definition cgpa_dtype (df : list student_row) : dtype :=
  if forallb cgpa_isnan df then dt_object else dt_float64.

(** Descending insertion that keeps an earlier row before later rows of
    the same [cgpa]. *)
Fixpoint insert_desc (r : student_row) (l : list student_row) : list student_row :=
  match l with
  | [] => [r]
  | r' :: l' =>
      if float_leb (cgpa r') (cgpa r) then r :: l else r' :: insert_desc r l'
  end.

Fixpoint sort_desc (l : list student_row) : list student_row :=
  match l with
  | [] => []
  | r :: l' => insert_desc r (sort_desc l')
  end.

(** [df.nlargest(n, 'cgpa')] with the default [keep='first']: the column
    must be numeric; [n <= 0] selects nothing; rows with a NaN [cgpa]
    come after all others, in row order.  When [n] is at least the
    number of rows the frame is sorted as a whole by
    [sort_values(ascending=False)]; otherwise the [n] largest are picked
    and ordered by a stable sort. *)
Definition nlargest (n : Z) (df : list student_row) : result (list student_row) :=
  match cgpa_dtype df with
  | dt_object => Raise TypeError
  | dt_float64 =>
      if n <=? 0 then Ok []
      else
        let dropped := List.filter cgpa_notnan df in
        let nan_rows := List.filter cgpa_isnan df in
        if Z.of_nat (length df) <=? n then
          Ok (firstn (Z.to_nat n) (quicksort_desc student_row cgpa dropped ++ nan_rows))
        else
          Ok (firstn (Z.to_nat n) (sort_desc dropped ++ nan_rows))
  end.

Definition get_top_students (self : University) (n : Z) : result (list student_row) :=
  nlargest n (students_df self).

(** ** Statistics

    The aggregates of the [cgpa] column are kept as the expression the
    program evaluates: [SRound2 a col] is [round(col.a(), 2)]. *)

Inductive agg : Type :=
| Mean
| Median
| Max
| Min
| Std.

Inductive statval : Type :=
| SInt (z : Z)
| SRound2 (a : agg) (col : list float64)
| SStr (s : string).

Definition len {A : Type} (l : list A) : Z := Z.of_nat (length l).

(** [Series.nunique()]: distinct values, NaN not counted. *)
Definition nunique (col : list (option string)) : Z :=
  len (remove_dups (omap id col)).

Definition get_statistics (self : University) : gmap string statval :=
  let df := students_df self in
  if is_empty df then
    list_to_map
      [ ("total_students", SInt 0);
        ("average_cgpa", SInt 0);
        ("median_cgpa", SInt 0);
        ("highest_cgpa", SInt 0);
        ("lowest_cgpa", SInt 0);
        ("degrees_offered", SInt 0);
        ("recent_graduates", SInt 0) ]
  else
    list_to_map
      [ ("total_students", SInt (len df));
        ("average_cgpa", SRound2 Mean (map cgpa df));
        ("median_cgpa", SRound2 Median (map cgpa df));
        ("highest_cgpa", SRound2 Max (map cgpa df));
        ("lowest_cgpa", SRound2 Min (map cgpa df));
        ("std_dev_cgpa", SRound2 Std (map cgpa df));
        ("degrees_offered", SInt (nunique (map degree df)));
        ("recent_graduates",
          SInt (len (List.filter (fun r => 2024 <=? graduation_year r) df))) ].

(** [d[k]] on a dictionary *)
Definition dict_getitem (d : gmap string statval) (k : string) : result statval :=
  match d !! k with
  | Some v => Ok v
  | None => Raise KeyError
  end.

(** ** The validation system *)

Record history_row : Type := {
  request_id : Z;
  h_student_id : string;
  status : string;
  h_university : string;
  requester : string
}.

Record ValidationSystem : Type := {
  universities : list University;
  validation_queue : list (string * string);
  total_requests : Z;
  successful_validations : Z;
  validation_history : list history_row
}.

Definition ValidationSystem_init : ValidationSystem :=
  {| universities := [];
     validation_queue := [];
     total_requests := 0;
     successful_validations := 0;
     validation_history := [] |}.

Definition register_university (self : ValidationSystem) (u : University) : ValidationSystem :=
  {| universities := universities self ++ [u];
     validation_queue := validation_queue self;
     total_requests := total_requests self;
     successful_validations := successful_validations self;
     validation_history := validation_history self |}.

Definition request_validation (self : ValidationSystem) (sid req : string) : ValidationSystem :=
  {| universities := universities self;
     validation_queue := validation_queue self ++ [(sid, req)];
     total_requests := total_requests self + 1;
     successful_validations := successful_validations self;
     validation_history := validation_history self |}.

Definition request_validations_bulk (self : ValidationSystem)
    (student_ids : list string) (req : string) : ValidationSystem :=
  fold_left
    (fun s sid =>
       {| universities := universities s;
          validation_queue := validation_queue s ++ [(sid, req)];
          total_requests := total_requests s + 1;
          successful_validations := successful_validations s;
          validation_history := validation_history s |})
    student_ids self.

(** The [for university in self.universities] loop of
    [process_validations] for one request.  [probed] is not a variable
    of the program: it lists the universities whose [verify_student]
    was called, in call order. *)
Record probe : Type := {
  found : bool;
  found_university : option string;
  found_credential : option credential;
  successful_after : Z;
  probed : list University
}.

Fixpoint for_universities (unis : list University) (sid : string)
    (successful : Z) : probe :=
  match unis with
  | [] =>
      {| found := false; found_university := None; found_credential := None;
         successful_after := successful; probed := [] |}
  | u :: rest =>
      match verify_student u sid with
      | Some c =>
          {| found := true; found_university := Some (uni_name u);
             found_credential := Some c;
             successful_after := successful + 1; probed := [u] |}
      | None =>
          let o := for_universities rest sid successful in
          {| found := found o; found_university := found_university o;
             found_credential := found_credential o;
             successful_after := successful_after o; probed := u :: probed o |}
      end
  end.

Definition new_log (self : ValidationSystem) (remaining : list (string * string))
    (sid req : string) (o : probe) : history_row :=
  {| request_id := total_requests self - len remaining;
     h_student_id := sid;
     status := if found o then "Success" else "Not Found";
     h_university := if found o then default "N/A" (found_university o) else "N/A";
     requester := req |}.

(** [while self.validation_queue: ... popleft() ...]; the first argument
    is the queue of [self], on which the loop recurses. *)
Fixpoint while_queue (queue : list (string * string)) (self : ValidationSystem)
    : ValidationSystem :=
  match queue with
  | [] => self
  | (sid, req) :: rest =>
      let o := for_universities (universities self) sid (successful_validations self) in
      while_queue rest
        {| universities := universities self;
           validation_queue := rest;
           total_requests := total_requests self;
           successful_validations := successful_after o;
           validation_history := validation_history self ++ [new_log self rest sid req o] |}
  end.

(** The percentage printed in the batch summary:
    [successful_validations / total_requests * 100]. *)
Definition summary_success_rate (self : ValidationSystem) : result pynum :=
  q ← py_truediv (successful_validations self) (total_requests self);
  Ok (PTimes100 q).

(** The throughput printed last in the batch summary:
    [requests_to_process / overall_time], where [overall_time] is the
    difference of the two clock reads around the round; [round] is the
    number of history rows the round started with. *)
Definition summary_throughput (round : Z) : result unit :=
  if elapsed_zero round then Raise ZeroDivisionError else Ok tt.

(** Returns the state the call leaves behind and whether it returned
    normally: the summary is printed after the queue has been drained.
    The average time per request, [overall_time / requests_to_process],
    divides by the length of a queue that is not empty. *)
Definition process_validations (self : ValidationSystem)
    : ValidationSystem * result unit :=
  if is_empty (validation_queue self) then (self, Ok tt)
  else
    let self' := while_queue (validation_queue self) self in
    (self',
     _ ← summary_success_rate self';
     _ ← summary_throughput (len (validation_history self));
     Ok tt).

(** ** Analytics and report *)

Definition total_students (self : ValidationSystem) : Z :=
  fold_right Z.add 0 (map (fun uni => len (students_df uni)) (universities self)).

Definition analytics_success_rate (self : ValidationSystem) : result (option pynum) :=
  if 0 <? total_requests self then
    q ← py_truediv (successful_validations self) (total_requests self);
    Ok (Some (PTimes100 q))
  else Ok None.

Definition analytics_keys : list string :=
  [ "total_students"; "average_cgpa"; "median_cgpa"; "highest_cgpa";
    "lowest_cgpa"; "std_dev_cgpa"; "degrees_offered"; "recent_graduates" ].

Record university_block : Type := {
  b_name : string;
  b_stats : list statval;
  b_top_3 : list (string * float64)
}.

(** [f"{student['name']:25s} CGPA: {student['cgpa']:.2f}"]: the format
    [s] is refused for a missing name, which is a float; the format
    [.2f] accepts every float64. *)
Definition format_top_student (student : student_row) : result (string * float64) :=
  match name student with
  | Some s => Ok (s, cgpa student)
  | None => Raise ValueError
  end.

Definition analytics_block (uni : University) : result university_block :=
  let stats := get_statistics uni in
  vals ← result_mapM (dict_getitem stats) analytics_keys;
  top ← (if is_empty (students_df uni) then Ok []
         else top_3 ← get_top_students uni 3; result_mapM format_top_student top_3);
  Ok {| b_name := uni_name uni; b_stats := vals; b_top_3 := top |}.

Record analytics : Type := {
  a_universities : Z;
  a_total_students : Z;
  a_total_requests : Z;
  a_successful_validations : Z;
  a_success_rate : option pynum;
  a_blocks : list university_block
}.

(** The numbers [get_analytics] prints, in print order; the section on
    processing times and request counts only reads the history. *)
Definition get_analytics (self : ValidationSystem) : result analytics :=
  rate ← analytics_success_rate self;
  blocks ← result_mapM analytics_block (universities self);
  Ok {| a_universities := len (universities self);
        a_total_students := total_students self;
        a_total_requests := total_requests self;
        a_successful_validations := successful_validations self;
        a_success_rate := rate;
        a_blocks := blocks |}.

Definition export_success_rate (self : ValidationSystem) : result pynum :=
  r ← (if 0 <? total_requests self then
         q ← py_truediv (successful_validations self) (total_requests self);
         Ok (PTimes100 q)
       else Ok (PInt 0));
  Ok (PRound2 r).

Definition statistics_columns : list string :=
  [ "university"; "total_students"; "average_cgpa"; "median_cgpa";
    "highest_cgpa"; "degrees_offered"; "recent_graduates" ].

Record report : Type := {
  sheet_validation_history : list history_row;
  sheet_all_students : list student_row;
  sheet_statistics : list (list (option statval));
  sheet_system_summary : list (string * pynum)
}.

(** [writer_ok] tells whether the Excel file could be written. *)
Definition export_comprehensive_report (self : ValidationSystem) (writer_ok : bool)
    : bool * option report :=
  try_except
    (_ ← (if writer_ok then Ok tt else Raise OSError);
     let stats_data :=
       map (fun uni => <["university" := SStr (uni_name uni)]> (get_statistics uni))
           (universities self) in
     rate ← export_success_rate self;
     Ok (true,
         Some {| sheet_validation_history := validation_history self;
                 sheet_all_students := concat (map students_df (universities self));
                 sheet_statistics :=
                   map (fun stats => map (fun k => stats !! k) statistics_columns)
                       stats_data;
                 sheet_system_summary :=
                   [ ("Total Universities", PInt (len (universities self)));
                     ("Total Students", PInt (total_students self));
                     ("Total Validation Requests", PInt (total_requests self));
                     ("Successful Validations", PInt (successful_validations self));
                     ("Success Rate (%)", rate) ] |}))
    (fun _ => (false, None)).

(** ** Runs of the system

    The calls a client can make.  A registered university is shared, not
    copied: [AddStudent i] and [AddStudentsBulk i] act on the [i]-th
    registered store (and on nothing when there is no such store). *)

Inductive op : Type :=
| Register (u : University)
| AddStudent (i : nat) (sid nm deg : string) (cg yr : pyobj) (today : string)
| AddStudentsBulk (i : nat) (students_list : list student_dict) (today : string)
| RequestValidation (sid req : string)
| RequestValidationsBulk (student_ids : list string) (req : string)
| ProcessValidations
| GetAnalytics
| ExportReport (writer_ok : bool).

Definition set_universities (self : ValidationSystem) (unis : list University)
    : ValidationSystem :=
  {| universities := unis;
     validation_queue := validation_queue self;
     total_requests := total_requests self;
     successful_validations := successful_validations self;
     validation_history := validation_history self |}.

Definition exec (self : ValidationSystem) (o : op) : ValidationSystem :=
  match o with
  | Register u => register_university self u
  | AddStudent i sid nm deg cg yr today =>
      set_universities self
        (alter (fun u => fst (add_student u sid nm deg cg yr today)) i (universities self))
  | AddStudentsBulk i l today =>
      set_universities self
        (alter (fun u => fst (add_students_bulk u l today)) i (universities self))
  | RequestValidation sid req => request_validation self sid req
  | RequestValidationsBulk ids req => request_validations_bulk self ids req
  | ProcessValidations => fst (process_validations self)
  | GetAnalytics => self
  | ExportReport _ => self
  end.

Inductive reachable : ValidationSystem -> Prop :=
| reachable_init : reachable ValidationSystem_init
| reachable_exec (self : ValidationSystem) (o : op) :
    reachable self -> reachable (exec self o).

(** ** Notions the properties are stated with *)

(** The comparison of float64 values is a total preorder on the values
    that are not NaN, and is false as soon as one side is NaN. *)
Record float_order : Prop := {
  leb_total : forall a b,
    isnan a = false -> isnan b = false ->
    float_leb a b = true \/ float_leb b a = true;
  leb_trans : forall a b c,
    float_leb a b = true -> float_leb b c = true -> float_leb a c = true;
  leb_not_nan : forall a b,
    float_leb a b = true -> isnan a = false /\ isnan b = false
}.

(** What is known of [sort_values] with the default quicksort: it
    permutes the rows, and puts them in descending order of their keys
    when no key is NaN. *)
Record quicksort_order : Prop := {
  quicksort_perm : forall (A : Type) (key : A -> float64) (l : list A),
    quicksort_desc A key l ≡ₚ l;
  quicksort_sorted : forall (A : Type) (key : A -> float64) (l : list A),
    Forall (fun a => isnan (key a) = false) l ->
    StronglySorted (fun a b => float_leb (key b) (key a) = true)
      (quicksort_desc A key l)
}.

(** [r1] may stand before [r2] in a frame sorted by [cgpa], largest
    first and NaN last. *)
Definition cgpa_desc (r1 r2 : student_row) : Prop :=
  isnan (cgpa r2) = true \/ float_leb (cgpa r2) (cgpa r1) = true.

(** The [cgpa] of [r] equals [c]. *)
Definition tied (c : float64) (r : student_row) : bool :=
  float_leb c (cgpa r) && float_leb (cgpa r) c.

(** The conditions under which the four column operations of
    [add_students_bulk] all succeed. *)
Definition batch_accepted (l : list student_dict) : Prop :=
  Exists (fun d => is_Some (d_cgpa d)) l
  /\ Exists (fun d => is_Some (d_student_id d)) l
  /\ Forall (fun d => exists o y, d_graduation_year d = Some o /\ np_int o = Ok y) l
  /\ Forall (fun d => forall o, d_cgpa d = Some o -> exists c, np_float o = Ok c) l.

(** A submission: one [request_validation] call or one
    [request_validations_bulk] call. *)
Inductive submission : Type :=
| Single (sid req : string)
| Bulk (student_ids : list string) (req : string).

Definition submit (self : ValidationSystem) (sub : submission) : ValidationSystem :=
  match sub with
  | Single sid req => request_validation self sid req
  | Bulk ids req => request_validations_bulk self ids req
  end.

Definition requests_of (sub : submission) : list (string * string) :=
  match sub with
  | Single sid req => [(sid, req)]
  | Bulk ids req => map (fun sid => (sid, req)) ids
  end.

Definition verifies (sid : string) (u : University) : bool :=
  match verify_student u sid with
  | Some _ => true
  | None => false
  end.

(** The first university, in list order, whose [verify_student] returns
    a record. *)
Definition first_match (unis : list University) (sid : string) : option University :=
  List.find (verifies sid) unis.

(** Status and university of the history row of a request. *)
Definition outcome (unis : list University) (sid : string) : string * string :=
  match first_match unis sid with
  | Some u => ("Success", uni_name u)
  | None => ("Not Found", "N/A")
  end.

(** The rows a run over [queue] is expected to log. *)
Fixpoint expected_history (unis : list University) (total : Z)
    (queue : list (string * string)) : list history_row :=
  match queue with
  | [] => []
  | (sid, req) :: rest =>
      {| request_id := total - len rest;
         h_student_id := sid;
         status := fst (outcome unis sid);
         h_university := snd (outcome unis sid);
         requester := req |} :: expected_history unis total rest
  end.

End Model.

(** ** Regular expressions

    [Series.str.contains(pat, case=False, na=False)] compiles [pat] as a
    regular expression with [re.IGNORECASE] and searches it in every
    string of the column.  The [re] module is not part of the program:
    compiling (which raises on a malformed pattern) and searching are
    taken from this interface. *)

Class PyRegex : Type := {
  regex : Type;
  re_compile_ignorecase : string -> result regex;
  re_search : regex -> string -> bool
}.

Section Queries.

Context `{RT : PyRuntime} `{RX : PyRegex}.

(** ** Queries on a store *)

(** [na=False]: a missing cell does not match. *)
Definition cell_contains (rx : regex) (cell : option string) : bool :=
  match cell with
  | Some s => re_search rx s
  | None => false
  end.

Definition cell_equals (s : string) (cell : option string) : bool :=
  bool_decide (cell = Some s).

Definition search_by_name (self : University) (nm : string) (exact_match : bool)
    : result (list student_row) :=
  if exact_match then
    Ok (List.filter (fun r => cell_equals nm (name r)) (students_df self))
  else
    rx ← re_compile_ignorecase nm;
    Ok (List.filter (fun r => cell_contains rx (name r)) (students_df self)).

Definition search_by_degree (self : University) (deg : string)
    : result (list student_row) :=
  rx ← re_compile_ignorecase deg;
  Ok (List.filter (fun r => cell_contains rx (degree r)) (students_df self)).

Definition in_cgpa_range (min_cgpa max_cgpa : float64) (r : student_row) : bool :=
  float_leb min_cgpa (cgpa r) && float_leb (cgpa r) max_cgpa.

Definition get_students_by_cgpa_range (self : University)
    (min_cgpa max_cgpa : float64) : list student_row :=
  List.filter (in_cgpa_range min_cgpa max_cgpa) (students_df self).

Definition get_recent_graduates (self : University) (year : Z) : list student_row :=
  List.filter (fun r => year <=? graduation_year r) (students_df self).

(** [Series.value_counts().sort_index()] on a column of integers: one
    entry per distinct value, by increasing value, with the number of
    its occurrences. *)
Definition value_counts_sort_index (col : list Z) : list (Z * Z) :=
  map (fun y => (y, len (List.filter (Z.eqb y) col)))
      (merge_sort Z.le (remove_dups col)).

Definition get_graduation_year_distribution (self : University) : list (Z * Z) :=
  value_counts_sort_index (map graduation_year (students_df self)).

(** ** File names

    [name.replace(' ', '_')] and the paths derived from it. *)
Fixpoint replace_space (s : string) : string :=
  match s with
  | EmptyString => EmptyString
  | String c s' =>
      String (if Ascii.eqb c " "%char then "_"%char else c) (replace_space s')
  end.

Definition default_csv_file (nm : string) : string :=
  "data/" +:+ replace_space nm +:+ "_students.csv".

(** [csv_file or f"data/..."]: [None] and the empty string are false. *)
Definition csv_file_of (nm : string) (csv_file : option string) : string :=
  match csv_file with
  | Some path => if decide (path = "") then default_csv_file nm else path
  | None => default_csv_file nm
  end.

(** [filename or f"reports/..."] in [export_to_excel]. *)
Definition excel_file_of (nm : string) (filename : option string) : string :=
  match filename with
  | Some path =>
      if decide (path = "") then "reports/" +:+ replace_space nm +:+ "_report.xlsx"
      else path
  | None => "reports/" +:+ replace_space nm +:+ "_report.xlsx"
  end.

Fixpoint has_space (s : string) : bool :=
  match s with
  | EmptyString => false
  | String c s' => Ascii.eqb c " "%char || has_space s'
  end.

(** ** Search across the network *)

(** The results of the universities that have a match are collected in
    registration order and concatenated; with no match at all an empty
    frame is returned. *)
Definition search_student_by_name (self : ValidationSystem) (nm : string)
    : result (list student_row) :=
  results ← result_mapM (fun u => search_by_name u nm false) (universities self);
  let all_results := List.filter (fun res => negb (is_empty res)) results in
  Ok (if is_empty all_results then [] else concat all_results).

(** The sum of a column of counts. *)
Definition sumZ (l : list Z) : Z := fold_right Z.add 0 l.

(** ** Notions for the history *)

(** The number of rows logged as found. *)
Definition successes (rows : list history_row) : Z :=
  len (List.filter (fun h => bool_decide (status h = "Success")) rows).

(** The row [assemble] builds from one dictionary of a batch. *)
Definition row_of_dict (uni today : string) (d : student_dict) (c : float64) (y : Z)
    : student_row :=
  {| student_id := d_student_id d; name := d_name d; university := uni;
     degree := d_degree d; cgpa := c; graduation_year := y;
     enrollment_date := today |}.

End Queries.

(** ** A concrete runtime

    A small set of Python values on which the conversions are known:
    an int, a float (a rational, or NaN), [None], and an object with no
    numeric conversion (such as [object()]).  It is used to run the
    model on concrete inputs. *)

Module Sample.

Inductive float : Type :=
| Finite (q : Q)
| NaN.

Inductive obj : Type :=
| Int (z : Z)
| Float (x : float)
| NoneObj
| Opaque.

(** [int(x)] on a float truncates towards zero. *)
Definition trunc (x : float) : result Z :=
  match x with
  | Finite q => Ok (Z.quot (Qnum q) (Zpos (Qden q)))
  | NaN => Raise ValueError
  end.

Definition float_of (o : obj) : result float :=
  match o with
  | Int z => Ok (Finite (inject_Z z))
  | Float x => Ok x
  | NoneObj => Raise TypeError
  | Opaque => Raise TypeError
  end.

Definition int_of (o : obj) : result Z :=
  match o with
  | Int z => Ok z
  | Float x => trunc x
  | NoneObj => Raise TypeError
  | Opaque => Raise TypeError
  end.

(** In an [object] column NumPy converts [None] to NaN. *)
Definition astype_float_of (o : obj) : result float :=
  match o with
  | NoneObj => Ok NaN
  | _ => float_of o
  end.

Definition is_nan (x : float) : bool :=
  match x with
  | NaN => true
  | Finite _ => false
  end.

Definition leb (x y : float) : bool :=
  match x, y with
  | Finite p, Finite q => Qle_bool p q
  | _, _ => false
  end.

(** A descending sort that puts equal keys in the reverse of their
    order in the list, as observed of [sort_values(ascending=False)] on
    short columns. *)
Fixpoint insert_by {A : Type} (key : A -> float) (a : A) (l : list A) : list A :=
  match l with
  | [] => [a]
  | b :: l' => if leb (key b) (key a) then a :: l else b :: insert_by key a l'
  end.

Definition sort_reversing_ties (A : Type) (key : A -> float) (l : list A) : list A :=
  fold_right (insert_by key) [] (rev l).

(** The clock of the sample runtime always advances. *)
#[global] Instance runtime : PyRuntime := {|
  pyobj := obj;
  float64 := float;
  py_float := float_of;
  py_int := int_of;
  np_float := astype_float_of;
  np_int := int_of;
  nan := NaN;
  isnan := is_nan;
  float_leb := leb;
  quicksort_desc := sort_reversing_ties;
  elapsed_zero := fun _ => false
|}.

Definition f (num : Z) (den : positive) : obj := Float (Finite (Qmake num den)).

Definition mit : University := University_init "MIT".

Definition today : string := "2024-05-01".

(** [mit.add_student("S1", "Alice", "CS", 3.5, 2023)] twice. *)
Definition mit_1 : University :=
  fst (add_student mit "S1" "Alice" "CS" (f 35 10) (Int 2023) today).

Definition mit_2 : University :=
  fst (add_student mit_1 "S1" "Alicia" "EE" (f 39 10) (Int 2024) today).

(** Three students, the first and the third with the same [cgpa]. *)
Definition mit_3 : University :=
  let u1 := fst (add_student mit "S1" "Alice" "CS" (f 35 10) (Int 2023) today) in
  let u2 := fst (add_student u1 "S2" "Bob" "EE" (f 39 10) (Int 2024) today) in
  fst (add_student u2 "S3" "Carol" "ME" (f 35 10) (Int 2023) today).

(** Four students: the first two share a [cgpa], so do the last two. *)
Definition mit_4 : University :=
  let u1 := fst (add_student mit "T0" "Ann" "CS" (f 30 10) (Int 2023) today) in
  let u2 := fst (add_student u1 "T1" "Ben" "CS" (f 30 10) (Int 2023) today) in
  let u3 := fst (add_student u2 "T2" "Cat" "CS" (f 39 10) (Int 2023) today) in
  fst (add_student u3 "T3" "Dan" "CS" (f 39 10) (Int 2023) today).

(** One student whose [cgpa] is [float('nan')]. *)
Definition mit_nan : University :=
  fst (add_student mit "N1" "Nil" "CS" (Float NaN) (Int 2023) today).

(** One student, added in bulk without a [name] key. *)
Definition mit_no_name : University :=
  fst (add_students_bulk mit
         [ {| d_student_id := Some "S1"; d_name := None; d_degree := Some "CS";
              d_cgpa := Some (f 35 10); d_graduation_year := Some (Int 2023) |} ]
         today).

Definition row (sid nm deg : string) (num : Z) (den : positive) (yr : Z) : student_row :=
  {| student_id := Some sid; name := Some nm; university := "MIT";
     degree := Some deg; cgpa := Finite (Qmake num den);
     graduation_year := yr; enrollment_date := today |}.

(** A batch whose only record has no [name] key. *)
Definition batch_no_name : list student_dict :=
  [ {| d_student_id := Some "S1"; d_name := None; d_degree := Some "CS";
       d_cgpa := Some (f 35 10); d_graduation_year := Some (Int 2023) |} ].

(** A batch in which one record of two has no [cgpa] key and no
    [student_id] key. *)
Definition batch_partial : list student_dict :=
  [ {| d_student_id := Some "S1"; d_name := Some "Alice"; d_degree := Some "CS";
       d_cgpa := Some (f 35 10); d_graduation_year := Some (Int 2023) |};
    {| d_student_id := None; d_name := Some "Bob"; d_degree := Some "EE";
       d_cgpa := None; d_graduation_year := Some (Int 2024) |} ].

(** A batch with every key present and a [graduation_year] that is
    [None]. *)
Definition batch_bad_year : list student_dict :=
  [ {| d_student_id := Some "S1"; d_name := Some "Alice"; d_degree := Some "CS";
       d_cgpa := Some (f 35 10); d_graduation_year := Some NoneObj |} ].

(** One registered university with one student, one request. *)
Definition system_1 : ValidationSystem :=
  request_validation
    (register_university ValidationSystem_init mit_1) "S1" "Acme".

End Sample.

(** ** Running the model *)

Example add_then_verify :
  verify_student Sample.mit_1 "S1" = Some (Sample.row "S1" "Alice" "CS" 35 10 2023).
Proof. reflexivity. Qed.

Example end_to_end_found :
  let s := fst (process_validations Sample.system_1) in
  validation_history s =
    [ {| request_id := 1; h_student_id := "S1"; status := "Success";
         h_university := "MIT"; requester := "Acme" |} ]
  /\ successful_validations s = 1
  /\ total_requests s = 1
  /\ export_success_rate s = Ok (PRound2 (PTimes100 (PQuot 1 1))).
Proof. vm_compute. auto. Qed.

Example end_to_end_not_found :
  let s := fst (process_validations
                  (request_validation ValidationSystem_init "S999" "Acme")) in
  validation_history s =
    [ {| request_id := 1; h_student_id := "S999"; status := "Not Found";
         h_university := "N/A"; requester := "Acme" |} ]
  /\ successful_validations s = 0
  /\ export_success_rate s = Ok (PRound2 (PTimes100 (PQuot 0 1))).
Proof. vm_compute. auto. Qed.

(** * Properties of the record store *)

Section StoreProperties.

Context `{RT : PyRuntime}.

Implicit Types (self : University) (df : list student_row) (sid : string).

Lemma index_contains_true df sid :
  index_contains df sid = true <-> exists r, r ∈ df /\ student_id r = Some sid.
Proof.
  unfold index_contains. rewrite bool_decide_eq_true, list_elem_of_fmap.
  split; intros (r & H1 & H2); exists r; auto.
Qed.

Lemma index_contains_false df sid :
  index_contains df sid = false ->
  filter (fun r => student_id r = Some sid) df = [].
Proof.
  intros H. induction df as [|r df IH]; [reflexivity|].
  unfold index_contains in *. apply bool_decide_eq_false in H.
  rewrite fmap_cons, elem_of_cons in H.
  rewrite filter_cons. destruct (decide (student_id r = Some sid)) as [E|E].
  - exfalso. apply H. left. symmetry. exact E.
  - apply IH. apply bool_decide_eq_false. intros Hin. apply H. right. exact Hin.
Qed.

Lemma index_contains_app df1 df2 sid :
  index_contains (df1 ++ df2) sid = index_contains df1 sid || index_contains df2 sid.
Proof.
  destruct (index_contains df1 sid) eqn:E1, (index_contains df2 sid) eqn:E2; simpl.
  1-3: apply index_contains_true.
  1,2: apply index_contains_true in E1 as (r & Hr & Hid); exists r;
       rewrite elem_of_app; auto.
  1: apply index_contains_true in E2 as (r & Hr & Hid); exists r;
     rewrite elem_of_app; auto.
  unfold index_contains in *. apply bool_decide_eq_false.
  apply bool_decide_eq_false in E1, E2.
  rewrite fmap_app, elem_of_app. tauto.
Qed.

Lemma add_student_ok self sid nm deg cg yr today c y :
  py_float cg = Ok c -> py_int yr = Ok y ->
  add_student self sid nm deg cg yr today =
    (set_students_df self
       (students_df self ++
          [ {| student_id := Some sid; name := Some nm;
               university := uni_name self; degree := Some deg; cgpa := c;
               graduation_year := y; enrollment_date := today |} ]),
     true).
Proof. intros Hc Hy. unfold add_student. rewrite Hc. simpl. rewrite Hy. reflexivity. Qed.

Lemma add_student_true_inv self sid nm deg cg yr today self' :
  add_student self sid nm deg cg yr today = (self', true) ->
  exists c y, py_float cg = Ok c /\ py_int yr = Ok y.
Proof.
  unfold add_student. destruct (py_float cg) as [c|e]; simpl; [|discriminate].
  destruct (py_int yr) as [y|e]; simpl; [|discriminate].
  intros _. eauto.
Qed.

(** C3: on an empty store [get_statistics] returns seven statistics equal
    to 0 and no standard deviation: the key [std_dev_cgpa], which the
    branch for a store with rows sets and [get_analytics] reads, is
    absent, so that the analytics of a system with an empty registered
    store end in a [KeyError]. *)
Theorem C3_empty_statistics_lack_std_dev (nm : string) :
  let stats := get_statistics (University_init nm) in
  stats !! "std_dev_cgpa" = None
  /\ Forall (fun k => stats !! k = Some (SInt 0))
       [ "total_students"; "average_cgpa"; "median_cgpa"; "highest_cgpa";
         "lowest_cgpa"; "degrees_offered"; "recent_graduates" ]
  /\ (forall (r : student_row) (df : list student_row),
        is_Some (get_statistics {| uni_name := nm; students_df := r :: df |}
                   !! "std_dev_cgpa"))
  /\ get_analytics (register_university ValidationSystem_init (University_init nm))
     = Raise KeyError.
Proof.
  repeat split.
  - repeat constructor.
  - intros r df. eexists. reflexivity.
Qed.

(** C4: a successful [add_student] of an id the store does not hold yet
    is read back by [verify_student]: the record has the id, name and
    degree that were passed, the [cgpa] as [float(cgpa)], the
    [graduation_year] as [int(graduation_year)], the store's name as
    [university], and the date of the insertion. *)
Theorem C4_verify_after_add self sid nm deg cg yr today self' :
  index_contains (students_df self) sid = false ->
  add_student self sid nm deg cg yr today = (self', true) ->
  exists c y,
    py_float cg = Ok c /\ py_int yr = Ok y /\
    verify_student self' sid =
      Some {| student_id := Some sid; name := Some nm;
              university := uni_name self; degree := Some deg; cgpa := c;
              graduation_year := y; enrollment_date := today |}.
Proof.
  intros Hnew Hadd.
  destruct (add_student_true_inv _ _ _ _ _ _ _ _ Hadd) as (c & y & Hc & Hy).
  exists c, y. split; [exact Hc|]. split; [exact Hy|].
  rewrite (add_student_ok _ sid nm deg _ _ today _ _ Hc Hy) in Hadd.
  injection Hadd as <-.
  unfold verify_student, set_students_df; simpl.
  rewrite index_contains_app, Hnew. simpl.
  unfold index_contains at 1. simpl.
  rewrite bool_decide_true by (apply list_elem_of_singleton; reflexivity).
  unfold loc. rewrite filter_app, (index_contains_false _ _ Hnew). simpl.
  rewrite filter_cons. simpl. rewrite decide_True by reflexivity.
  reflexivity.
Qed.

(** C6: when [float(cgpa)] or [int(graduation_year)] raises,
    [add_student] returns [False] to its caller and the store is the one
    it was given. *)
Theorem C6_add_student_rejects_bad_numbers self sid nm deg cg yr today :
  raises (py_float cg) \/ raises (py_int yr) ->
  add_student self sid nm deg cg yr today = (self, false).
Proof.
  unfold add_student. intros [[e He]|[e He]].
  - rewrite He. reflexivity.
  - destruct (py_float cg); simpl; [rewrite He|]; reflexivity.
Qed.

(** C9: after two successful [add_student] calls with the same id the
    store holds both rows, and [verify_student] of that id returns
    [None]: [loc] yields a frame, the conversion of its
    [graduation_year] entries raises, and the handler returns [None]. *)
Theorem C9_duplicate_id_is_not_verified self sid nm1 deg1 cg1 yr1 d1
    nm2 deg2 cg2 yr2 d2 self1 self2 :
  add_student self sid nm1 deg1 cg1 yr1 d1 = (self1, true) ->
  add_student self1 sid nm2 deg2 cg2 yr2 d2 = (self2, true) ->
  (exists r1 r2,
     students_df self2 = students_df self ++ [r1; r2]
     /\ student_id r1 = Some sid /\ student_id r2 = Some sid
     /\ name r1 = Some nm1 /\ name r2 = Some nm2)
  /\ index_contains (students_df self2) sid = true
  /\ verify_student self2 sid = None.
Proof.
  intros H1 H2.
  destruct (add_student_true_inv _ _ _ _ _ _ _ _ H1) as (c1 & y1 & Hc1 & Hy1).
  destruct (add_student_true_inv _ _ _ _ _ _ _ _ H2) as (c2 & y2 & Hc2 & Hy2).
  rewrite (add_student_ok _ sid nm1 deg1 _ _ d1 _ _ Hc1 Hy1) in H1.
  injection H1 as <-.
  rewrite (add_student_ok _ sid nm2 deg2 _ _ d2 _ _ Hc2 Hy2) in H2.
  injection H2 as <-.
  simpl. rewrite <- app_assoc. simpl.
  assert (Hin : index_contains
            (students_df self ++
               [ {| student_id := Some sid; name := Some nm1;
                    university := uni_name self; degree := Some deg1;
                    cgpa := c1; graduation_year := y1; enrollment_date := d1 |};
                 {| student_id := Some sid; name := Some nm2;
                    university := uni_name self; degree := Some deg2;
                    cgpa := c2; graduation_year := y2; enrollment_date := d2 |} ])
            sid = true).
  { apply index_contains_true. eexists. split.
    - apply elem_of_app. right. left.
    - reflexivity. }
  split; [|split].
  - do 2 eexists. split; [reflexivity|]. simpl. auto.
  - exact Hin.
  - unfold verify_student. simpl. rewrite Hin.
    unfold loc. rewrite filter_app, !filter_cons. simpl.
    rewrite !decide_True by reflexivity.
    destruct (filter _ (students_df self)) as [|r0 [|r1 l]]; reflexivity.
Qed.

End StoreProperties.

(** * Top students *)

Section TopStudents.

Context `{RT : PyRuntime}.
Hypothesis laws : float_order.

Let ge (r1 r2 : student_row) : Prop := float_leb (cgpa r2) (cgpa r1) = true.

Lemma insert_desc_perm r l : insert_desc r l ≡ₚ r :: l.
Proof.
  induction l as [|r' l IH]; simpl; [reflexivity|].
  destruct (float_leb (cgpa r') (cgpa r)); [reflexivity|].
  rewrite IH. apply Permutation_swap.
Qed.

Lemma sort_desc_perm l : sort_desc l ≡ₚ l.
Proof.
  induction l as [|r l IH]; simpl; [reflexivity|].
  rewrite insert_desc_perm, IH. reflexivity.
Qed.

Lemma insert_desc_sorted r l :
  cgpa_notnan r = true -> Forall (fun x => cgpa_notnan x = true) l ->
  StronglySorted ge l -> StronglySorted ge (insert_desc r l).
Proof.
  intros Hr Hl Hs. induction l as [|r' l IH]; simpl.
  - repeat constructor.
  - apply StronglySorted_cons in Hs as [Hall Hs].
    apply Forall_cons in Hl as [Hr' Hl].
    destruct (float_leb (cgpa r') (cgpa r)) eqn:E.
    + apply StronglySorted_cons. split.
      * constructor; [exact E|].
        eapply Forall_impl; [exact Hall|]. intros x Hx. unfold ge in *.
        eapply leb_trans; eauto.
      * apply StronglySorted_cons. auto.
    + apply StronglySorted_cons. split; [|auto].
      rewrite insert_desc_perm. constructor; [|exact Hall].
      unfold ge, cgpa_notnan in *.
      apply negb_true_iff in Hr, Hr'.
      destruct (leb_total laws _ _ Hr Hr') as [H|H]; [exact H|congruence].
Qed.

Lemma sort_desc_sorted l :
  Forall (fun x => cgpa_notnan x = true) l -> StronglySorted ge (sort_desc l).
Proof.
  induction l as [|r l IH]; simpl; intros H.
  - constructor.
  - apply Forall_cons in H as [Hr Hl]. apply insert_desc_sorted; auto.
    rewrite sort_desc_perm. exact Hl.
Qed.

Lemma tied_insert_desc c r l :
  List.filter (tied c) (insert_desc r l) = List.filter (tied c) (r :: l).
Proof.
  induction l as [|r' l IH]; [reflexivity|].
  cbn [insert_desc].
  destruct (float_leb (cgpa r') (cgpa r)) eqn:E; [reflexivity|].
  cbn [List.filter] in *. rewrite IH.
  destruct (tied c r) eqn:Tr; [|reflexivity].
  destruct (tied c r') eqn:Tr'; [|reflexivity].
  exfalso. unfold tied in *.
  apply andb_true_iff in Tr as [Hcr _], Tr' as [_ Hr'c].
  rewrite (leb_trans laws _ _ _ Hr'c Hcr) in E. discriminate.
Qed.

Lemma tied_sort_desc c l :
  List.filter (tied c) (sort_desc l) = List.filter (tied c) l.
Proof.
  induction l as [|r l IH]; [reflexivity|].
  cbn [sort_desc]. rewrite tied_insert_desc. cbn [List.filter].
  rewrite IH. reflexivity.
Qed.

Lemma tied_not_nan c r : tied c r = true -> cgpa_notnan r = true.
Proof.
  unfold tied, cgpa_notnan. intros H. apply andb_true_iff in H as [H _].
  apply (leb_not_nan laws) in H as [_ H]. rewrite H. reflexivity.
Qed.

Lemma tied_dropped c l :
  List.filter (tied c) (List.filter cgpa_notnan l) = List.filter (tied c) l.
Proof.
  induction l as [|r l IH]; [reflexivity|]. cbn [List.filter].
  destruct (cgpa_notnan r) eqn:E; cbn [List.filter]; rewrite IH.
  - reflexivity.
  - destruct (tied c r) eqn:T; [|reflexivity].
    apply tied_not_nan in T. congruence.
Qed.

Lemma tied_nan_rows c l :
  List.filter (tied c) (List.filter cgpa_isnan l) = [].
Proof.
  induction l as [|r l IH]; [reflexivity|]. cbn [List.filter].
  destruct (cgpa_isnan r) eqn:E; cbn [List.filter]; rewrite ?IH; [|reflexivity].
  destruct (tied c r) eqn:T; [|reflexivity].
  apply tied_not_nan in T. unfold cgpa_notnan, cgpa_isnan in *.
  rewrite E in T. discriminate.
Qed.

Lemma nan_rows_sorted l :
  StronglySorted cgpa_desc (List.filter cgpa_isnan l).
Proof.
  induction l as [|r l IH]; cbn [List.filter]; [constructor|].
  destruct (cgpa_isnan r) eqn:E; [|exact IH].
  constructor; [exact IH|].
  apply Forall_forall. intros x Hx. left.
  apply list_elem_of_In, filter_In in Hx as [_ Hx]. exact Hx.
Qed.

Lemma ge_sorted_desc l : StronglySorted ge l -> StronglySorted cgpa_desc l.
Proof.
  induction 1 as [|r l Hs IH Hall]; constructor; [exact IH|].
  eapply Forall_impl; [exact Hall|]. intros x Hx. right. exact Hx.
Qed.

Lemma filter_all_notnan l :
  Forall (fun x => cgpa_notnan x = true) (List.filter cgpa_notnan l).
Proof.
  apply Forall_forall. intros x Hx.
  apply list_elem_of_In, filter_In in Hx as [_ Hx]. exact Hx.
Qed.

Lemma dropped_nan_perm l :
  List.filter cgpa_notnan l ++ List.filter cgpa_isnan l ≡ₚ l.
Proof.
  induction l as [|r l IH]; [reflexivity|]. cbn [List.filter].
  unfold cgpa_notnan at 1, cgpa_isnan at 1.
  destruct (isnan (cgpa r)); simpl.
  - rewrite <- Permutation_middle, IH. reflexivity.
  - rewrite IH. reflexivity.
Qed.

Lemma nan_rows_of_sorted l :
  List.filter cgpa_isnan (sort_desc (List.filter cgpa_notnan l)) = [].
Proof.
  assert (H : Forall (fun x => cgpa_notnan x = true)
                (sort_desc (List.filter cgpa_notnan l))).
  { rewrite sort_desc_perm. apply filter_all_notnan. }
  induction H as [|x k Hx _ IH]; [reflexivity|]. cbn [List.filter].
  unfold cgpa_notnan, cgpa_isnan in *. apply negb_true_iff in Hx.
  rewrite Hx. exact IH.
Qed.

Lemma filter_idem (f : student_row -> bool) l :
  List.filter f (List.filter f l) = List.filter f l.
Proof.
  induction l as [|r l IH]; [reflexivity|]. cbn [List.filter].
  destruct (f r) eqn:E; cbn [List.filter]; rewrite ?E, IH; reflexivity.
Qed.

Lemma filter_firstn_prefix (f : student_row -> bool) n l :
  List.filter f (firstn n l) `prefix_of` List.filter f l.
Proof.
  rewrite <- (firstn_skipn n l) at 2. rewrite List.filter_app.
  apply prefix_app_r. reflexivity.
Qed.

Lemma selection_properties (n : nat) l :
  let sorted := sort_desc (List.filter cgpa_notnan l) ++ List.filter cgpa_isnan l in
  let rows := firstn n sorted in
  length rows = Nat.min n (length l)
  /\ StronglySorted cgpa_desc rows
  /\ rows ⊆+ l
  /\ (forall c, List.filter (tied c) rows `prefix_of` List.filter (tied c) l)
  /\ List.filter cgpa_isnan rows `prefix_of` List.filter cgpa_isnan l.
Proof.
  intros sorted rows.
  assert (Hperm : sorted ≡ₚ l).
  { unfold sorted. rewrite sort_desc_perm. apply dropped_nan_perm. }
  split; [|split; [|split; [|split]]].
  - unfold rows. rewrite length_firstn, Hperm. reflexivity.
  - apply (StronglySorted_app_1_l _ rows (skipn n sorted)).
    unfold rows. rewrite firstn_skipn. unfold sorted.
    apply StronglySorted_app_2.
    + intros x1 x2 _ H2. left. apply list_elem_of_In, filter_In in H2 as [_ H2].
      exact H2.
    + apply ge_sorted_desc, sort_desc_sorted, filter_all_notnan.
    + apply nan_rows_sorted.
  - rewrite <- Hperm. apply sublist_submseteq, sublist_take.
  - intros c. etransitivity; [apply filter_firstn_prefix|].
    unfold sorted. rewrite List.filter_app, tied_sort_desc, tied_dropped, tied_nan_rows.
    rewrite app_nil_r. reflexivity.
  - etransitivity; [apply filter_firstn_prefix|].
    unfold sorted. rewrite List.filter_app, nan_rows_of_sorted, filter_idem.
    reflexivity.
Qed.

Hypothesis sorting : quicksort_order.

Lemma cgpa_dtype_float64 l :
  Exists (fun r => isnan (cgpa r) = false) l -> cgpa_dtype l = dt_float64.
Proof.
  intros H. unfold cgpa_dtype.
  destruct (forallb cgpa_isnan l) eqn:E; [|reflexivity].
  rewrite forallb_forall in E. apply Exists_exists in H as (r & Hr & Hnan).
  apply list_elem_of_In in Hr. specialize (E r Hr). unfold cgpa_isnan in E. congruence.
Qed.

Lemma no_nan_rows l :
  Forall (fun x => cgpa_notnan x = true) l -> List.filter cgpa_isnan l = [].
Proof.
  induction 1 as [|x k Hx _ IH]; [reflexivity|]. cbn [List.filter].
  unfold cgpa_notnan, cgpa_isnan in *. apply negb_true_iff in Hx.
  rewrite Hx. exact IH.
Qed.

Lemma whole_sort_properties l :
  let sorted := quicksort_desc student_row cgpa (List.filter cgpa_notnan l)
                  ++ List.filter cgpa_isnan l in
  sorted ≡ₚ l
  /\ StronglySorted cgpa_desc sorted
  /\ List.filter cgpa_isnan sorted = List.filter cgpa_isnan l.
Proof.
  intros sorted.
  assert (Hnn : Forall (fun x => cgpa_notnan x = true)
                  (quicksort_desc student_row cgpa (List.filter cgpa_notnan l))).
  { rewrite (quicksort_perm sorting). apply filter_all_notnan. }
  split; [|split].
  - unfold sorted. rewrite (quicksort_perm sorting). apply dropped_nan_perm.
  - unfold sorted. apply StronglySorted_app_2.
    + intros x1 x2 _ H2. left. apply list_elem_of_In, filter_In in H2 as [_ H2].
      exact H2.
    + apply ge_sorted_desc. apply (quicksort_sorted sorting).
      eapply Forall_impl; [apply filter_all_notnan|].
      intros x Hx. unfold cgpa_notnan in Hx. apply negb_true_iff in Hx. exact Hx.
    + apply nan_rows_sorted.
  - unfold sorted. rewrite List.filter_app, (no_nan_rows _ Hnn), filter_idem.
    reflexivity.
Qed.

(** C5 (amended): on a store in which some record has a [cgpa] and for
    every [n >= 0], [get_top_students n] returns [min(n, size)] records
    of the store, sorted by [cgpa] in descending order (a missing [cgpa]
    last); when [n] is below the size of the store, records with the
    same [cgpa] keep the order they have in the store. *)
Theorem C5_top_students self n :
  Exists (fun r => isnan (cgpa r) = false) (students_df self) -> 0 <= n ->
  exists rows,
    get_top_students self n = Ok rows
    /\ len rows = Z.min n (len (students_df self))
    /\ StronglySorted cgpa_desc rows
    /\ rows ⊆+ students_df self
    /\ (n < len (students_df self) ->
        forall c, List.filter (tied c) rows
                    `prefix_of` List.filter (tied c) (students_df self))
    /\ List.filter cgpa_isnan rows
         `prefix_of` List.filter cgpa_isnan (students_df self).
Proof.
  intros Hex Hn. unfold get_top_students, nlargest.
  rewrite (cgpa_dtype_float64 _ Hex).
  destruct (n <=? 0) eqn:En.
  - apply Z.leb_le in En. exists []. split; [reflexivity|].
    split; [unfold len; simpl; lia|]. split; [constructor|].
    split; [apply submseteq_nil_l|].
    split; [intros _ c|]; apply prefix_nil.
  - apply Z.leb_gt in En.
    destruct (Z.of_nat (length (students_df self)) <=? n) eqn:Ewhole.
    + apply Z.leb_le in Ewhole. eexists. split; [reflexivity|].
      destruct (whole_sort_properties (students_df self)) as (Hperm & Hsorted & Hnan).
      rewrite take_ge by (rewrite Hperm; lia).
      split; [unfold len; rewrite Hperm; lia|]. split; [exact Hsorted|].
      split; [rewrite Hperm; reflexivity|].
      split; [unfold len; lia|]. rewrite Hnan. reflexivity.
    + apply Z.leb_gt in Ewhole. eexists. split; [reflexivity|].
      destruct (selection_properties (Z.to_nat n) (students_df self))
        as (Hlen & Hsorted & Hsub & Hties & Hnan).
      split; [unfold len; rewrite Hlen; lia|]. auto.
Qed.

End TopStudents.

(** * Bulk insertion *)

Section BulkProperties.

Context `{RT : PyRuntime}.

Lemma result_mapM_spec {A B : Type} (f : A -> result B) (l : list A) :
  (exists bs, result_mapM f l = Ok bs /\ Forall2 (fun a b => f a = Ok b) l bs)
  \/ (exists e, result_mapM f l = Raise e /\ Exists (fun a => f a = Raise e) l).
Proof.
  induction l as [|a l IH]; simpl.
  - left. exists []. split; [reflexivity|constructor].
  - destruct (f a) as [b|e] eqn:Ea; simpl.
    + destruct IH as [(bs & -> & H)|(e & -> & H)]; simpl.
      * left. exists (b :: bs). split; [reflexivity|]. constructor; assumption.
      * right. exists e. split; [reflexivity|]. apply Exists_cons_tl. exact H.
    + right. exists e. split; [reflexivity|]. apply Exists_cons_hd. exact Ea.
Qed.

Lemma getitem_spec {A : Type} (key : student_dict -> option A) (l : list student_dict) :
  (Exists (fun d => is_Some (key d)) l /\ getitem key l = Ok (map key l))
  \/ (Forall (fun d => key d = None) l /\ getitem key l = Raise KeyError).
Proof.
  unfold getitem. destruct (forallb _ l) eqn:E.
  - right. split; [|reflexivity].
    apply Forall_forall. intros d Hd. apply list_elem_of_In in Hd.
    rewrite forallb_forall in E. specialize (E d Hd).
    destruct (key d); [discriminate|reflexivity].
  - left. split; [|reflexivity].
    apply Exists_exists.
    induction l as [|d l IH]; [discriminate|]. simpl in E.
    destruct (key d) as [a|] eqn:Ed; simpl in E.
    + exists d. split; [left|]. rewrite Ed. eexists; reflexivity.
    + destruct (IH E) as (d' & Hin & Hs). exists d'. split; [right; exact Hin|exact Hs].
Qed.

Lemma Exists_Forall_None {A : Type} (key : student_dict -> option A) l :
  Exists (fun d => is_Some (key d)) l -> Forall (fun d => key d = None) l -> False.
Proof.
  rewrite Exists_exists, Forall_forall. intros (d & Hin & [a Ha]) Hall.
  rewrite (Hall d Hin) in Ha. discriminate.
Qed.

Lemma assemble_columns uni today l cgpas years :
  length cgpas = length l -> length years = length l ->
  let new_df := assemble uni today l cgpas years in
  map student_id new_df = map d_student_id l
  /\ map name new_df = map d_name l
  /\ map degree new_df = map d_degree l
  /\ map cgpa new_df = cgpas
  /\ map graduation_year new_df = years
  /\ Forall (fun r => university r = uni /\ enrollment_date r = today) new_df.
Proof.
  revert cgpas years. induction l as [|d l IH]; intros [|c cs] [|y ys] Hc Hy;
    simpl in *; try discriminate.
  - repeat split. constructor.
  - destruct (IH cs ys) as (H1 & H2 & H3 & H4 & H5 & H6); [lia|lia|].
    rewrite H1, H2, H3, H4, H5. repeat split. constructor; [split; reflexivity|exact H6].
Qed.

Lemma astype_float_raises l e :
  Exists (fun c => match c with None => Ok nan | Some o => np_float o end = Raise e)
    (map d_cgpa l) ->
  Forall (fun d => forall o, d_cgpa d = Some o -> exists c, np_float o = Ok c) l ->
  False.
Proof.
  rewrite Exists_exists, Forall_forall. intros (c & Hin & Hc) Hall.
  apply list_elem_of_fmap in Hin as (d & -> & Hd).
  destruct (d_cgpa d) as [o|] eqn:Ed; [|discriminate].
  destruct (Hall d Hd o Ed) as [x Hx]. congruence.
Qed.

Lemma astype_int_raises l e :
  Exists (fun c => match c with None => Raise ValueError | Some o => np_int o end = Raise e)
    (map d_graduation_year l) ->
  Forall (fun d => exists o y, d_graduation_year d = Some o /\ np_int o = Ok y) l ->
  False.
Proof.
  rewrite Exists_exists, Forall_forall. intros (c & Hin & Hc) Hall.
  apply list_elem_of_fmap in Hin as (d & -> & Hd).
  destruct (Hall d Hd) as (o & y & Ho & Hy). rewrite Ho in Hc. congruence.
Qed.

Lemma astype_float_ok l cgpas :
  Forall2 (fun c b => match c with None => Ok nan | Some o => np_float o end = Ok b)
    (map d_cgpa l) cgpas ->
  Forall (fun d => forall o, d_cgpa d = Some o -> exists c, np_float o = Ok c) l.
Proof.
  revert cgpas. induction l as [|d l IH]; intros cgpas H; [constructor|].
  simpl in H. apply Forall2_cons_inv_l in H as (b & bs & Hb & Hbs & ->).
  constructor; [|eapply IH; exact Hbs].
  intros o Ho. rewrite Ho in Hb. eauto.
Qed.

Lemma astype_int_ok l years :
  Forall2 (fun c b => match c with None => Raise ValueError | Some o => np_int o end = Ok b)
    (map d_graduation_year l) years ->
  Forall (fun d => exists o y, d_graduation_year d = Some o /\ np_int o = Ok y) l.
Proof.
  revert years. induction l as [|d l IH]; intros years H; [constructor|].
  simpl in H. apply Forall2_cons_inv_l in H as (b & bs & Hb & Hbs & ->).
  constructor; [|eapply IH; exact Hbs].
  destruct (d_graduation_year d) as [o|]; [eauto|discriminate].
Qed.

(** The batch was rejected: the store is unchanged and the conditions of
    acceptance must be contradicted. *)
Ltac batch_rejected :=
  split; [right; reflexivity|]; split; [discriminate|].

(** C7 (amended): [add_students_bulk] never raises and is all or
    nothing: either it returns [True] and the store has gained one row
    per dictionary of the batch, in batch order, or it returns [False]
    and the store is unchanged.  It succeeds exactly when some
    dictionary has a [cgpa] key, some dictionary has a [student_id] key,
    every dictionary has a [graduation_year] that converts to an
    integer, and every [cgpa] that is present converts to a float;
    [name] and [degree] play no part. *)
Theorem C7_bulk_all_or_nothing (self : University) (l : list student_dict)
    (today : string) :
  ((exists new_df,
      add_students_bulk self l today
        = (set_students_df self (students_df self ++ new_df), true)
      /\ map student_id new_df = map d_student_id l
      /\ map name new_df = map d_name l
      /\ map degree new_df = map d_degree l
      /\ Forall (fun r => university r = uni_name self /\ enrollment_date r = today)
           new_df)
   \/ add_students_bulk self l today = (self, false))
  /\ (snd (add_students_bulk self l today) = true <-> batch_accepted l).
Proof.
  unfold add_students_bulk, batch_accepted.
  destruct (getitem_spec d_cgpa l) as [[Ec ->]|[Ec ->]]; simpl.
  2: { batch_rejected.
       intros (H & _). destruct (Exists_Forall_None _ _ H Ec). }
  unfold astype_float.
  destruct (result_mapM_spec
              (fun c => match c with None => Ok nan | Some o => np_float o end)
              (map d_cgpa l)) as [(cgpas & -> & Hcg)|(e & -> & Hcg)]; simpl.
  2: { batch_rejected.
       intros (_ & _ & _ & H). destruct (astype_float_raises _ _ Hcg H). }
  destruct (getitem_spec d_graduation_year l) as [[Ey ->]|[Ey ->]]; simpl.
  2: { batch_rejected.
       intros (_ & _ & H & _).
       apply Exists_exists in Ec as (d & Hd & _).
       rewrite Forall_forall in Ey, H.
       destruct (H d Hd) as (o & y & Ho & _). rewrite (Ey d Hd) in Ho. discriminate. }
  unfold astype_int.
  destruct (result_mapM_spec
              (fun c => match c with None => Raise ValueError | Some o => np_int o end)
              (map d_graduation_year l)) as [(years & -> & Hyr)|(e & -> & Hyr)]; simpl.
  2: { batch_rejected.
       intros (_ & _ & H & _). destruct (astype_int_raises _ _ Hyr H). }
  destruct (getitem_spec d_student_id l) as [[Ei ->]|[Ei ->]]; simpl.
  2: { batch_rejected.
       intros (_ & H & _). destruct (Exists_Forall_None _ _ H Ei). }
  split.
  - left. eexists. split; [reflexivity|].
    apply Forall2_length in Hcg, Hyr. rewrite length_map in Hcg, Hyr.
    destruct (assemble_columns (uni_name self) today l cgpas years)
      as (H1 & H2 & H3 & _ & _ & H6); [lia|lia|]. auto.
  - split; [intros _|reflexivity].
    split; [exact Ec|]. split; [exact Ei|].
    split; [eapply astype_int_ok|eapply astype_float_ok]; eassumption.
Qed.

End BulkProperties.

(** * Properties of the validation system *)

Section SystemProperties.

Context `{RT : PyRuntime}.

Implicit Types (self : ValidationSystem) (unis : list University)
  (queue : list (string * string)) (sid req : string).

Lemma len_app {A : Type} (l k : list A) : len (l ++ k) = len l + len k.
Proof. unfold len. rewrite length_app. lia. Qed.

Lemma len_nonneg {A : Type} (l : list A) : 0 <= len l.
Proof. unfold len. lia. Qed.

Lemma len_cons {A : Type} (a : A) (l : list A) : len (a :: l) = len l + 1.
Proof. unfold len. simpl length. lia. Qed.

Lemma len_map {A B : Type} (g : A -> B) (l : list A) : len (map g l) = len l.
Proof. unfold len. rewrite length_map. reflexivity. Qed.

#[local] Arguments len : simpl never.

Lemma request_validations_bulk_spec self ids req :
  request_validations_bulk self ids req =
    {| universities := universities self;
       validation_queue := validation_queue self ++ map (fun sid => (sid, req)) ids;
       total_requests := total_requests self + len ids;
       successful_validations := successful_validations self;
       validation_history := validation_history self |}.
Proof.
  unfold request_validations_bulk. revert self.
  induction ids as [|sid ids IH]; intros self; simpl.
  - destruct self; simpl. rewrite app_nil_r. f_equal. unfold len. simpl. lia.
  - rewrite IH. simpl. rewrite <- app_assoc. simpl. f_equal.
    unfold len. simpl. lia.
Qed.

Lemma submit_spec self sub :
  submit self sub =
    {| universities := universities self;
       validation_queue := validation_queue self ++ requests_of sub;
       total_requests := total_requests self + len (requests_of sub);
       successful_validations := successful_validations self;
       validation_history := validation_history self |}.
Proof.
  destruct sub as [sid req|ids req]; simpl.
  - reflexivity.
  - rewrite request_validations_bulk_spec, len_map. reflexivity.
Qed.

Lemma submit_all_spec subs self :
  fold_left submit subs self =
    {| universities := universities self;
       validation_queue := validation_queue self ++ concat (map requests_of subs);
       total_requests := total_requests self + len (concat (map requests_of subs));
       successful_validations := successful_validations self;
       validation_history := validation_history self |}.
Proof.
  revert self. induction subs as [|sub subs IH]; intros self; simpl.
  - destruct self; simpl. rewrite app_nil_r. f_equal. unfold len. simpl. lia.
  - rewrite IH, submit_spec. simpl. rewrite <- app_assoc, len_app. f_equal. lia.
Qed.

Lemma for_universities_spec unis sid succ :
  let o := for_universities unis sid succ in
  match first_match unis sid with
  | Some u =>
      found o = true /\ found_university o = Some (uni_name u)
      /\ successful_after o = succ + 1
  | None =>
      found o = false /\ found_university o = None
      /\ successful_after o = succ /\ probed o = unis
  end.
Proof.
  unfold first_match. induction unis as [|u unis IH]; simpl.
  - auto.
  - unfold verifies at 1. destruct (verify_student u sid) as [c|]; simpl.
    + auto.
    + destruct (find (verifies sid) unis) as [v|]; simpl in *.
      * exact IH.
      * destruct IH as (H1 & H2 & H3 & H4). rewrite H4. auto.
Qed.

Lemma new_log_expected self rest sid req :
  new_log self rest sid req
    (for_universities (universities self) sid (successful_validations self))
  = {| request_id := total_requests self - len rest;
       h_student_id := sid;
       status := fst (outcome (universities self) sid);
       h_university := snd (outcome (universities self) sid);
       requester := req |}.
Proof.
  unfold new_log, outcome.
  pose proof (for_universities_spec (universities self) sid
                (successful_validations self)) as H.
  simpl in H. destruct (first_match (universities self) sid) as [u|].
  - destruct H as (-> & -> & _). reflexivity.
  - destruct H as (-> & _). reflexivity.
Qed.

Lemma successful_after_bounds unis sid succ :
  succ <= successful_after (for_universities unis sid succ) <= succ + 1.
Proof.
  pose proof (for_universities_spec unis sid succ) as H. simpl in H.
  destruct (first_match unis sid); [destruct H as (_ & _ & ->)|destruct H as (_ & _ & -> & _)];
    lia.
Qed.

Lemma while_queue_spec queue self :
  let self' := while_queue queue self in
  universities self' = universities self
  /\ validation_queue self' = match queue with
                             | [] => validation_queue self
                             | _ :: _ => []
                             end
  /\ total_requests self' = total_requests self
  /\ successful_validations self <= successful_validations self'
       <= successful_validations self + len queue
  /\ validation_history self' =
       validation_history self
         ++ expected_history (universities self) (total_requests self) queue.
Proof.
  revert self. induction queue as [|[sid req] rest IH]; intros self; simpl.
  - rewrite app_nil_r. unfold len. simpl. repeat split; lia.
  - match goal with |- context [while_queue rest ?s] =>
      destruct (IH s) as (H1 & H2 & H3 & H4 & H5) end.
    simpl in *. rewrite new_log_expected in H1, H2, H3, H4, H5 |- *.
    rewrite H1, H2, H3, H5.
    pose proof (successful_after_bounds (universities self) sid
                  (successful_validations self)) as Hb.
    rewrite <- app_assoc. simpl.
    split; [reflexivity|]. split; [destruct rest; reflexivity|].
    split; [reflexivity|]. split; [|reflexivity].
    rewrite len_cons. lia.
Qed.

Lemma process_validations_spec self :
  let self' := fst (process_validations self) in
  universities self' = universities self
  /\ validation_queue self' = []
  /\ total_requests self' = total_requests self
  /\ successful_validations self <= successful_validations self'
       <= successful_validations self + len (validation_queue self)
  /\ validation_history self' =
       validation_history self
         ++ expected_history (universities self) (total_requests self)
              (validation_queue self).
Proof.
  unfold process_validations.
  destruct (validation_queue self) as [|p rest] eqn:Eq; simpl is_empty; cbv iota.
  - simpl. rewrite Eq, app_nil_r. unfold len. simpl. repeat split; lia.
  - cbn [fst]. destruct (while_queue_spec (p :: rest) self) as (H1 & H2 & H3 & H4 & H5).
    auto.
Qed.

Lemma expected_history_requests unis total queue :
  map (fun h => (h_student_id h, requester h)) (expected_history unis total queue)
  = queue.
Proof.
  induction queue as [|[sid req] rest IH]; simpl; [reflexivity|].
  rewrite IH. reflexivity.
Qed.

(** C1: requests submitted one by one or in bulk join the queue in
    submission order; [process_validations] then leaves the queue empty
    and appends to the history one row per request, in that order,
    whatever the registered universities hold. *)
Theorem C1_fifo_order self (subs : list submission) :
  let queued := fold_left submit subs self in
  let processed := fst (process_validations queued) in
  validation_queue queued = validation_queue self ++ concat (map requests_of subs)
  /\ validation_queue processed = []
  /\ exists rows,
       validation_history processed = validation_history self ++ rows
       /\ map (fun h => (h_student_id h, requester h)) rows
          = validation_queue self ++ concat (map requests_of subs).
Proof.
  intros queued processed.
  destruct (process_validations_spec queued) as (_ & Hq & _ & _ & Hh).
  fold processed in Hq, Hh.
  assert (Eq : validation_queue queued
               = validation_queue self ++ concat (map requests_of subs)).
  { unfold queued. rewrite submit_all_spec. reflexivity. }
  assert (Eh : validation_history queued = validation_history self).
  { unfold queued. rewrite submit_all_spec. reflexivity. }
  split; [exact Eq|]. split; [exact Hq|].
  eexists. split.
  - rewrite Hh, Eh. reflexivity.
  - rewrite expected_history_requests. exact Eq.
Qed.

Lemma not_contained_not_verified (u : University) sid :
  index_contains (students_df u) sid = false -> verify_student u sid = None.
Proof. intros H. unfold verify_student. rewrite H. reflexivity. Qed.

(** C2: universities are probed in registration order and the probing
    of a request stops at the first one whose [verify_student] returns a
    record: the row logged for the request names that university, the
    universities after it are not probed, and when no registered
    university holds the id the row is "Not Found" with "N/A" as
    university. *)
Theorem C2_first_match_in_registration_order self sid succ :
  (forall u, universities (register_university self u) = universities self ++ [u])
  /\ validation_history (fst (process_validations self)) =
       validation_history self
         ++ expected_history (universities self) (total_requests self)
              (validation_queue self)
  /\ (forall pre u post c,
        universities self = pre ++ u :: post ->
        Forall (fun v => verify_student v sid = None) pre ->
        verify_student u sid = Some c ->
        outcome (universities self) sid = ("Success", uni_name u)
        /\ probed (for_universities (universities self) sid succ) = pre ++ [u]
        /\ found_credential (for_universities (universities self) sid succ) = Some c)
  /\ (Forall (fun v => index_contains (students_df v) sid = false) (universities self) ->
      outcome (universities self) sid = ("Not Found", "N/A")
      /\ probed (for_universities (universities self) sid succ) = universities self).
Proof.
  split; [reflexivity|].
  split; [apply process_validations_spec|].
  split.
  - intros pre u post c -> Hpre Hu. unfold outcome, first_match.
    induction Hpre as [|v pre Hv Hpre IH]; simpl.
    + unfold verifies. rewrite Hu. auto.
    + unfold verifies at 1. rewrite Hv.
      destruct IH as (H1 & H2 & H3). rewrite H2, H3. auto.
  - intros Hall. unfold outcome, first_match.
    induction Hall as [|v unis Hv Hall IH]; simpl; [auto|].
    apply not_contained_not_verified in Hv. unfold verifies at 1. rewrite Hv.
    destruct IH as (H1 & H2). rewrite H2. auto.
Qed.

Lemma reachable_counters self :
  reachable self ->
  0 <= successful_validations self
  /\ successful_validations self + len (validation_queue self) <= total_requests self.
Proof.
  induction 1 as [|self o _ [IH1 IH2]].
  - simpl. unfold len. simpl. lia.
  - destruct o; simpl; try (split; assumption).
    + rewrite len_app. unfold len at 2. simpl. lia.
    + rewrite request_validations_bulk_spec. simpl.
      rewrite len_app, len_map. lia.
    + destruct (process_validations_spec self) as (_ & -> & -> & H & _).
      pose proof (len_nonneg (validation_queue self)).
      unfold len at 1. simpl. lia.
Qed.

Lemma py_truediv_ok (a b : Z) : b <> 0 -> py_truediv a b = Ok (PQuot a b).
Proof. intros H. unfold py_truediv. apply Z.eqb_neq in H. rewrite H. reflexivity. Qed.



Lemma get_top_students_raises (uni : University) (n : Z) e :
  get_top_students uni n = Raise e -> e = TypeError.
Proof.
  unfold get_top_students, nlargest.
  destruct (cgpa_dtype (students_df uni)); [congruence|].
  destruct (n <=? 0); [discriminate|].
  destruct (Z.of_nat (length (students_df uni)) <=? n); discriminate.
Qed.



(** With requests in the queue, a reachable state has been given a
    request, so that the success rate of the summary is computed; what
    is left to fail is the throughput, when the clock has not moved. *)
Lemma process_validations_outcome self :
  reachable self -> validation_queue self <> [] ->
  snd (process_validations self) =
    if elapsed_zero (len (validation_history self))
    then Raise ZeroDivisionError else Ok tt.
Proof.
  intros Hr Hq. destruct (reachable_counters self Hr) as [H0 Hinv].
  unfold process_validations.
  destruct (validation_queue self) as [|p rest] eqn:Eq; [congruence|].
  simpl is_empty. cbv iota. cbn [snd]. unfold summary_success_rate.
  destruct (while_queue_spec (p :: rest) self) as (_ & _ & -> & _).
  rewrite len_cons in Hinv. pose proof (len_nonneg rest).
  rewrite py_truediv_ok by lia. simpl. unfold summary_throughput.
  destruct (elapsed_zero _); reflexivity.
Qed.


(** C10: in every reachable state [successful_validations] lies between
    0 and [total_requests], and no call lowers a counter:
    [request_validation] adds one to [total_requests],
    [request_validations_bulk] adds the number of ids, both enqueue as
    many requests and leave [successful_validations] alone;
    [process_validations] keeps [total_requests] and adds to
    [successful_validations] at most the number of queued requests; the
    other calls change neither counter. *)
Theorem C10_counters_monotone self :
  reachable self ->
  0 <= successful_validations self <= total_requests self
  /\ forall o,
       total_requests self <= total_requests (exec self o)
       /\ successful_validations self <= successful_validations (exec self o)
       /\ match o with
          | RequestValidation _ _ =>
              total_requests (exec self o) = total_requests self + 1
              /\ len (validation_queue (exec self o)) = len (validation_queue self) + 1
              /\ successful_validations (exec self o) = successful_validations self
          | RequestValidationsBulk ids _ =>
              total_requests (exec self o) = total_requests self + len ids
              /\ len (validation_queue (exec self o))
                 = len (validation_queue self) + len ids
              /\ successful_validations (exec self o) = successful_validations self
          | ProcessValidations =>
              total_requests (exec self o) = total_requests self
              /\ successful_validations (exec self o)
                 <= successful_validations self + len (validation_queue self)
          | _ =>
              total_requests (exec self o) = total_requests self
              /\ successful_validations (exec self o) = successful_validations self
          end.
Proof.
  intros Hr. destruct (reachable_counters self Hr) as [H0 Hinv].
  pose proof (len_nonneg (validation_queue self)) as Hlen.
  split; [lia|].
  intros o. destruct o; simpl; try (repeat split; lia).
  - rewrite len_app. unfold len at 2. simpl. repeat split; lia.
  - rewrite request_validations_bulk_spec. simpl.
    rewrite len_app, len_map.
    pose proof (len_nonneg student_ids). repeat split; lia.
  - destruct (process_validations_spec self) as (_ & _ & -> & H & _).
    repeat split; lia.
Qed.

End SystemProperties.

(** * Concrete runs on the sample runtime *)

Lemma sample_float_order : float_order (RT := Sample.runtime).
Proof.
  constructor.
  - intros [p|] [q|] Ha Hb; try discriminate. simpl.
    rewrite !Qle_bool_iff.
    destruct (Qlt_le_dec p q) as [H|H]; [left; apply Qlt_le_weak; exact H|right; exact H].
  - intros [p|] [q|] [r|]; simpl; try discriminate.
    rewrite !Qle_bool_iff. apply Qle_trans.
  - intros [p|] [q|]; simpl; try discriminate. auto.
Qed.

Lemma sample_insert_by_perm {A : Type} (key : A -> Sample.float) (a : A) (l : list A) :
  Sample.insert_by key a l ≡ₚ a :: l.
Proof.
  induction l as [|b l IH]; simpl; [reflexivity|].
  destruct (Sample.leb (key b) (key a)); [reflexivity|].
  rewrite IH. apply Permutation_swap.
Qed.

Lemma sample_sort_perm {A : Type} (key : A -> Sample.float) (l : list A) :
  fold_right (Sample.insert_by key) [] l ≡ₚ l.
Proof.
  induction l as [|a l IH]; simpl; [reflexivity|].
  rewrite sample_insert_by_perm, IH. reflexivity.
Qed.

Lemma sample_insert_by_sorted {A : Type} (key : A -> Sample.float) (a : A) (l : list A) :
  Sample.is_nan (key a) = false ->
  Forall (fun b => Sample.is_nan (key b) = false) l ->
  StronglySorted (fun x y => Sample.leb (key y) (key x) = true) l ->
  StronglySorted (fun x y => Sample.leb (key y) (key x) = true)
    (Sample.insert_by key a l).
Proof.
  intros Ha Hl Hs. induction l as [|b l IH]; simpl.
  - repeat constructor.
  - apply StronglySorted_cons in Hs as [Hall Hs].
    apply Forall_cons in Hl as [Hb Hl].
    destruct (Sample.leb (key b) (key a)) eqn:E.
    + apply StronglySorted_cons. split.
      * constructor; [exact E|].
        eapply Forall_impl; [exact Hall|]. intros x Hx.
        exact (leb_trans sample_float_order _ _ _ Hx E).
      * apply StronglySorted_cons. auto.
    + apply StronglySorted_cons. split; [|auto].
      rewrite sample_insert_by_perm. constructor; [|exact Hall].
      destruct (leb_total sample_float_order _ _ Ha Hb) as [H|H]; [exact H|].
      simpl in H. congruence.
Qed.

Lemma sample_quicksort_order : quicksort_order (RT := Sample.runtime).
Proof.
  constructor; intros A key l; simpl; unfold Sample.sort_reversing_ties.
  - rewrite sample_sort_perm. symmetry. apply Permutation_rev.
  - intros Hl.
    assert (Hrev : Forall (fun a => Sample.is_nan (key a) = false) (rev l)).
    { apply Forall_forall. intros x Hx. rewrite Forall_forall in Hl. apply Hl.
      apply list_elem_of_In. apply list_elem_of_In, in_rev in Hx. exact Hx. }
    induction Hrev as [|a k Ha Hk IH]; simpl; [constructor|].
    apply sample_insert_by_sorted; [exact Ha| |exact IH].
    rewrite sample_sort_perm. exact Hk.
Qed.

(** C4 at a concrete input: a first student added to an empty store. *)
Lemma C4_verify_after_add_witness :
  index_contains (students_df Sample.mit) "S1" = false
  /\ add_student Sample.mit "S1" "Alice" "CS" (Sample.f 35 10) (Sample.Int 2023)
       Sample.today = (Sample.mit_1, true)
  /\ exists c y,
       py_float (Sample.f 35 10) = Ok c /\ py_int (Sample.Int 2023) = Ok y /\
       verify_student Sample.mit_1 "S1" =
         Some {| student_id := Some "S1"; name := Some "Alice";
                 university := uni_name Sample.mit; degree := Some "CS"; cgpa := c;
                 graduation_year := y; enrollment_date := Sample.today |}.
Proof.
  split; [reflexivity|]. split; [reflexivity|].
  apply (C4_verify_after_add Sample.mit "S1" "Alice" "CS" (Sample.f 35 10)
           (Sample.Int 2023) Sample.today Sample.mit_1); reflexivity.
Defined.

(** C5 as stated fails: for a negative [n] the selection is empty, not
    of length [min(n, size)]; when [n] is the size of the store, records
    with the same [cgpa] may come out against store order (here the
    sample runtime's sort puts T3 before T2 and T1 before T0); and on a
    store without a record, or with records that all lack a [cgpa],
    [get_top_students] raises. *)
Lemma C5_counterexample :
  (get_top_students Sample.mit_1 (-1) = Ok []
   /\ ~ (exists rows,
           get_top_students Sample.mit_1 (-1) = Ok rows
           /\ len rows = Z.min (-1) (len (students_df Sample.mit_1))))
  /\ (exists rows,
        get_top_students Sample.mit_4 4 = Ok rows
        /\ map student_id rows = [Some "T3"; Some "T2"; Some "T1"; Some "T0"]
        /\ map student_id (students_df Sample.mit_4)
           = [Some "T0"; Some "T1"; Some "T2"; Some "T3"]
        /\ ~ (forall c, List.filter (tied c) rows
                          `prefix_of` List.filter (tied c) (students_df Sample.mit_4)))
  /\ get_top_students Sample.mit 3 = Raise TypeError
  /\ get_top_students Sample.mit_nan 1 = Raise TypeError.
Proof.
  split; [|split; [|split; reflexivity]].
  - split; [reflexivity|]. intros (rows & H & L).
    injection H as <-. discriminate L.
  - eexists. split; [reflexivity|]. split; [reflexivity|]. split; [reflexivity|].
    intros H. specialize (H (Sample.Finite (Qmake 39 10))).
    destruct H as [k Hk]. vm_compute in Hk. discriminate Hk.
Qed.

(** C5 at a concrete input: the two best of three students, two of
    whom have the same [cgpa]. *)
Lemma C5_top_students_witness :
  Exists (fun r => isnan (cgpa r) = false) (students_df Sample.mit_3) /\ 0 <= 2
  /\ exists rows,
       get_top_students Sample.mit_3 2 = Ok rows
       /\ len rows = Z.min 2 (len (students_df Sample.mit_3))
       /\ StronglySorted cgpa_desc rows
       /\ rows ⊆+ students_df Sample.mit_3
       /\ (2 < len (students_df Sample.mit_3) ->
           forall c, List.filter (tied c) rows
                       `prefix_of` List.filter (tied c) (students_df Sample.mit_3))
       /\ List.filter cgpa_isnan rows
            `prefix_of` List.filter cgpa_isnan (students_df Sample.mit_3).
Proof.
  assert (H : Exists (fun r => isnan (cgpa r) = false) (students_df Sample.mit_3)).
  { apply Exists_cons_hd. reflexivity. }
  split; [exact H|]. split; [lia|].
  apply (C5_top_students sample_float_order sample_quicksort_order Sample.mit_3 2 H).
  lia.
Defined.

Example top_two_of_three :
  get_top_students Sample.mit_3 2
  = Ok [ Sample.row "S2" "Bob" "EE" 39 10 2024;
         Sample.row "S1" "Alice" "CS" 35 10 2023 ].
Proof. reflexivity. Qed.

(** C6 at a concrete input: [None] as [cgpa]. *)
Lemma C6_add_student_rejects_bad_numbers_witness :
  (raises (py_float Sample.NoneObj) \/ raises (py_int (Sample.Int 2023)))
  /\ add_student Sample.mit "S1" "Alice" "CS" Sample.NoneObj (Sample.Int 2023)
       Sample.today = (Sample.mit, false).
Proof.
  assert (H : raises (py_float Sample.NoneObj) \/ raises (py_int (Sample.Int 2023))).
  { left. exists TypeError. reflexivity. }
  split; [exact H|].
  apply (C6_add_student_rejects_bad_numbers Sample.mit "S1" "Alice" "CS"
           Sample.NoneObj (Sample.Int 2023) Sample.today H).
Defined.

(** C7 as stated fails: a batch whose record has no [name] key is
    inserted; so is a batch in which one of two records has neither
    [cgpa] nor [student_id]; and a batch with every key present is
    rejected when a [graduation_year] does not convert. *)
Lemma C7_counterexample :
  (exists d, In d Sample.batch_no_name /\ d_name d = None)
  /\ add_students_bulk Sample.mit Sample.batch_no_name Sample.today
     = (set_students_df Sample.mit
          [ {| student_id := Some "S1"; name := None; university := "MIT";
               degree := Some "CS"; cgpa := Sample.Finite (Qmake 35 10);
               graduation_year := 2023; enrollment_date := Sample.today |} ],
        true)
  /\ (exists d, In d Sample.batch_partial /\ d_cgpa d = None /\ d_student_id d = None)
  /\ snd (add_students_bulk Sample.mit Sample.batch_partial Sample.today) = true
  /\ map student_id
       (students_df (fst (add_students_bulk Sample.mit Sample.batch_partial Sample.today)))
     = [Some "S1"; None]
  /\ Forall (fun d => is_Some (d_student_id d) /\ is_Some (d_name d)
                      /\ is_Some (d_degree d) /\ is_Some (d_cgpa d)
                      /\ is_Some (d_graduation_year d)) Sample.batch_bad_year
  /\ add_students_bulk Sample.mit Sample.batch_bad_year Sample.today
     = (Sample.mit, false).
Proof.
  split.
  { eexists. split; [left; reflexivity|reflexivity]. }
  split; [reflexivity|]. split.
  { eexists. split; [right; left; reflexivity|split; reflexivity]. }
  split; [reflexivity|]. split; [reflexivity|]. split; [|reflexivity].
  repeat constructor; eexists; reflexivity.
Qed.


(** C9 at a concrete input: the same id added twice to an empty
    store. *)
Lemma C9_duplicate_id_is_not_verified_witness :
  add_student Sample.mit "S1" "Alice" "CS" (Sample.f 35 10) (Sample.Int 2023)
    Sample.today = (Sample.mit_1, true)
  /\ add_student Sample.mit_1 "S1" "Alicia" "EE" (Sample.f 39 10) (Sample.Int 2024)
       Sample.today = (Sample.mit_2, true)
  /\ index_contains (students_df Sample.mit_2) "S1" = true
  /\ verify_student Sample.mit_2 "S1" = None.
Proof.
  split; [reflexivity|]. split; [reflexivity|].
  apply (C9_duplicate_id_is_not_verified Sample.mit "S1"
           "Alice" "CS" (Sample.f 35 10) (Sample.Int 2023) Sample.today
           "Alicia" "EE" (Sample.f 39 10) (Sample.Int 2024) Sample.today
           Sample.mit_1 Sample.mit_2); reflexivity.
Defined.

Example duplicate_id_is_logged_not_found :
  let s := request_validation
             (register_university ValidationSystem_init Sample.mit_2) "S1" "Acme" in
  map (fun h => (status h, h_university h))
      (validation_history (fst (process_validations s)))
  = [("Not Found", "N/A")].
Proof. reflexivity. Qed.

(** C10 at a concrete input: one university registered, one request
    queued. *)
Lemma C10_counters_monotone_witness :
  reachable Sample.system_1
  /\ 0 <= successful_validations Sample.system_1 <= total_requests Sample.system_1
  /\ successful_validations (exec Sample.system_1 ProcessValidations)
     <= successful_validations Sample.system_1
        + len (validation_queue Sample.system_1).
Proof.
  assert (H : reachable Sample.system_1).
  { apply (reachable_exec _ (RequestValidation "S1" "Acme")).
    apply (reachable_exec _ (Register Sample.mit_1)).
    apply reachable_init. }
  split; [exact H|].
  destruct (C10_counters_monotone Sample.system_1 H) as [Hb Hop].
  split; [exact Hb|].
  destruct (Hop ProcessValidations) as (_ & _ & _ & Hs). exact Hs.
Defined.

(** * Further properties of the record store *)

Section StoreLookup.

Context `{RT : PyRuntime}.

Implicit Types (self : University) (df : list student_row) (sid : string).

(** [verify_student] is decided by the rows that carry the id. *)
Lemma verify_student_filter self sid :
  verify_student self sid =
    match filter (fun r => student_id r = Some sid) (students_df self) with
    | [r] => Some r
    | _ => None
    end.
Proof.
  unfold verify_student, loc.
  destruct (index_contains (students_df self) sid) eqn:E.
  - destruct (filter _ (students_df self)) as [|r [|r' l]]; reflexivity.
  - rewrite (index_contains_false _ _ E). reflexivity.
Qed.

Lemma add_student_cases self sid nm deg cg yr today :
  (exists c y,
     py_float cg = Ok c /\ py_int yr = Ok y /\
     add_student self sid nm deg cg yr today =
       (set_students_df self
          (students_df self ++
             [ {| student_id := Some sid; name := Some nm;
                  university := uni_name self; degree := Some deg; cgpa := c;
                  graduation_year := y; enrollment_date := today |} ]),
        true))
  \/ add_student self sid nm deg cg yr today = (self, false).
Proof.
  unfold add_student. destruct (py_float cg) as [c|e] eqn:Ec; simpl; [|right; reflexivity].
  destruct (py_int yr) as [y|e] eqn:Ey; simpl; [|right; reflexivity].
  left. exists c, y. auto.
Qed.

Lemma add_students_bulk_cases self (l : list student_dict) today :
  (exists cgpas years,
     Forall2 (fun cell c => match cell with None => Ok nan | Some o => np_float o end = Ok c)
       (map d_cgpa l) cgpas
     /\ Forall2 (fun cell y => match cell with
                              | None => Raise ValueError
                              | Some o => np_int o
                              end = Ok y)
          (map d_graduation_year l) years
     /\ add_students_bulk self l today =
          (set_students_df self
             (students_df self ++ assemble (uni_name self) today l cgpas years),
           true))
  \/ add_students_bulk self l today = (self, false).
Proof.
  unfold add_students_bulk.
  destruct (getitem_spec d_cgpa l) as [[_ ->]|[_ ->]]; simpl; [|right; reflexivity].
  unfold astype_float.
  destruct (result_mapM_spec
              (fun c => match c with None => Ok nan | Some o => np_float o end)
              (map d_cgpa l)) as [(cgpas & -> & Hcg)|(e & -> & _)]; simpl;
    [|right; reflexivity].
  destruct (getitem_spec d_graduation_year l) as [[_ ->]|[_ ->]]; simpl;
    [|right; reflexivity].
  unfold astype_int.
  destruct (result_mapM_spec
              (fun c => match c with None => Raise ValueError | Some o => np_int o end)
              (map d_graduation_year l)) as [(years & -> & Hyr)|(e & -> & _)]; simpl;
    [|right; reflexivity].
  destruct (getitem_spec d_student_id l) as [[_ ->]|[_ ->]]; simpl;
    [|right; reflexivity].
  left. exists cgpas, years. auto.
Qed.

(** X1: [verify_student] returns a record exactly when one and only one
    row of the store carries the id, and then it returns that row; with
    no such row, or with several, it returns [None]. *)
Theorem X1_verify_student_iff_unique self sid :
  (forall c,
     verify_student self sid = Some c
     <-> filter (fun r => student_id r = Some sid) (students_df self) = [c])
  /\ (verify_student self sid = None
      <-> length (filter (fun r => student_id r = Some sid) (students_df self)) <> 1%nat)
  /\ (forall c, verify_student self sid = Some c ->
        c ∈ students_df self /\ student_id c = Some sid).
Proof.
  rewrite verify_student_filter.
  assert (Hin : forall c,
            filter (fun r => student_id r = Some sid) (students_df self) = [c] ->
            c ∈ students_df self /\ student_id c = Some sid).
  { intros c Hc.
    assert (H : c ∈ filter (fun r => student_id r = Some sid) (students_df self)).
    { rewrite Hc. left. }
    apply list_elem_of_filter in H. tauto. }
  destruct (filter _ (students_df self)) as [|r [|r' l]]; simpl.
  - split; [intros c; split; discriminate|]. split; [split; [lia|reflexivity]|].
    discriminate.
  - split; [intros c; split; intros [= ->]; reflexivity|].
    split; [split; [discriminate|lia]|].
    intros c [= <-]. apply Hin. reflexivity.
  - split; [intros c; split; discriminate|]. split; [split; [lia|reflexivity]|].
    discriminate.
Qed.

(** X2: adding a student, successfully or not, does not change what
    [verify_student] returns for any other id. *)
Theorem X2_add_student_keeps_other_ids self sid' nm deg cg yr today sid :
  sid' <> sid ->
  verify_student (fst (add_student self sid' nm deg cg yr today)) sid
  = verify_student self sid.
Proof.
  intros Hne.
  destruct (add_student_cases self sid' nm deg cg yr today)
    as [(c & y & _ & _ & ->)| ->]; [|reflexivity].
  rewrite !verify_student_filter. simpl.
  rewrite filter_app, filter_cons. simpl.
  rewrite decide_False by congruence.
  rewrite filter_nil, app_nil_r. reflexivity.
Qed.

(** X3: a store whose rows all carry the store's name as [university]
    keeps that property, and its name, through [add_student] and
    [add_students_bulk], whether they succeed or fail. *)
Theorem X3_rows_carry_store_name self :
  Forall (fun r => university r = uni_name self) (students_df self) ->
  (forall sid nm deg cg yr today,
     let self' := fst (add_student self sid nm deg cg yr today) in
     uni_name self' = uni_name self
     /\ Forall (fun r => university r = uni_name self') (students_df self'))
  /\ (forall l today,
        let self' := fst (add_students_bulk self l today) in
        uni_name self' = uni_name self
        /\ Forall (fun r => university r = uni_name self') (students_df self')).
Proof.
  intros Hinv. split.
  - intros sid nm deg cg yr today.
    destruct (add_student_cases self sid nm deg cg yr today)
      as [(c & y & _ & _ & ->)| ->]; simpl; [|auto].
    split; [reflexivity|]. apply Forall_app. split; [exact Hinv|].
    repeat constructor.
  - intros l today.
    destruct (add_students_bulk_cases self l today)
      as [(cgpas & years & Hc & Hy & ->)| ->]; simpl; [|auto].
    split; [reflexivity|]. apply Forall_app. split; [exact Hinv|].
    apply Forall2_length in Hc, Hy. rewrite length_map in Hc, Hy.
    destruct (assemble_columns (uni_name self) today l cgpas years)
      as (_ & _ & _ & _ & _ & H); [lia|lia|].
    eapply Forall_impl; [exact H|]. intros r [Hr _]. exact Hr.
Qed.

Lemma assemble_filter_nil uni today sid (l : list student_dict) cgpas years :
  filter (fun d => d_student_id d = Some sid) l = [] ->
  filter (fun r => student_id r = Some sid) (assemble uni today l cgpas years) = [].
Proof.
  revert cgpas years. induction l as [|d l IH]; intros [|c cs] [|y ys] H;
    try reflexivity.
  simpl. rewrite filter_cons in H. rewrite filter_cons. simpl.
  destruct (decide (d_student_id d = Some sid)); [discriminate|].
  apply IH. exact H.
Qed.

Lemma assemble_filter_one uni today sid (l : list student_dict) cgpas years d
    (Pc : option pyobj -> float64 -> Prop) (Py : option pyobj -> Z -> Prop) :
  Forall2 Pc (map d_cgpa l) cgpas ->
  Forall2 Py (map d_graduation_year l) years ->
  filter (fun d => d_student_id d = Some sid) l = [d] ->
  exists c y,
    Pc (d_cgpa d) c /\ Py (d_graduation_year d) y
    /\ filter (fun r => student_id r = Some sid) (assemble uni today l cgpas years)
       = [row_of_dict uni today d c y].
Proof.
  revert cgpas years. induction l as [|d0 l IH]; intros cgpas years Hc Hy H.
  - discriminate.
  - simpl in Hc, Hy.
    apply Forall2_cons_inv_l in Hc as (c & cs & Hc0 & Hcs & ->).
    apply Forall2_cons_inv_l in Hy as (y & ys & Hy0 & Hys & ->).
    simpl. rewrite filter_cons in H. rewrite filter_cons. simpl.
    destruct (decide (d_student_id d0 = Some sid)) as [E|E].
    + injection H as -> H. exists c, y. split; [exact Hc0|]. split; [exact Hy0|].
      rewrite (assemble_filter_nil _ _ _ _ _ _ H). reflexivity.
    + apply IH; assumption.
Qed.

(** X4: when [add_students_bulk] accepts a batch, an id that the store
    did not hold and that exactly one dictionary of the batch carries is
    verified afterwards, with that dictionary's name and degree (missing
    if the key was absent), its converted [cgpa] (NaN if the key was
    absent) and [graduation_year], the store's name and the insertion
    date. *)
Theorem X4_verify_after_bulk self (l : list student_dict) today sid d self' :
  add_students_bulk self l today = (self', true) ->
  index_contains (students_df self) sid = false ->
  filter (fun d => d_student_id d = Some sid) l = [d] ->
  exists c y,
    verify_student self' sid = Some (row_of_dict (uni_name self) today d c y)
    /\ match d_cgpa d with
       | Some o => np_float o = Ok c
       | None => c = nan
       end
    /\ exists o, d_graduation_year d = Some o /\ np_int o = Ok y.
Proof.
  intros Hadd Hnew Hone.
  destruct (add_students_bulk_cases self l today)
    as [(cgpas & years & Hc & Hy & E)|E]; rewrite E in Hadd; [|discriminate].
  injection Hadd as <-.
  destruct (assemble_filter_one (uni_name self) today sid l cgpas years d _ _ Hc Hy Hone)
    as (c & y & Hcd & Hyd & Hf).
  exists c, y. split; [|split].
  - rewrite verify_student_filter. simpl.
    rewrite filter_app, (index_contains_false _ _ Hnew), Hf. reflexivity.
  - destruct (d_cgpa d); [exact Hcd|congruence].
  - destruct (d_graduation_year d) as [o|]; [eauto|discriminate].
Qed.

Lemma length_remove_dups {A : Type} `{EqDecision A} (l : list A) :
  (length (remove_dups l) <= length l)%nat.
Proof.
  induction l as [|x l IH]; simpl; [lia|].
  destruct (decide_rel elem_of x l); simpl; lia.
Qed.

Lemma length_omap_le {A B : Type} (g : A -> option B) (l : list A) :
  (length (omap g l) <= length l)%nat.
Proof.
  induction l as [|x l IH]; csimpl; [lia|].
  destruct (g x); csimpl; lia.
Qed.

Lemma length_List_filter {A : Type} (g : A -> bool) (l : list A) :
  (length (List.filter g l) <= length l)%nat.
Proof.
  induction l as [|x l IH]; simpl; [lia|].
  destruct (g x); simpl; lia.
Qed.

(** X5: the counts in [get_statistics] agree with the store:
    [total_students] is the number of rows, [degrees_offered] lies
    between 0 and that number, and [recent_graduates] is the number of
    rows [get_recent_graduates(2024)] returns, which is at most the
    number of rows. *)
Theorem X5_statistics_counts self :
  exists degrees recent,
    get_statistics self !! "total_students" = Some (SInt (len (students_df self)))
    /\ get_statistics self !! "degrees_offered" = Some (SInt degrees)
    /\ get_statistics self !! "recent_graduates" = Some (SInt recent)
    /\ 0 <= degrees <= len (students_df self)
    /\ recent = len (get_recent_graduates self 2024)
    /\ 0 <= recent <= len (students_df self).
Proof.
  unfold get_statistics, get_recent_graduates.
  destruct (students_df self) as [|r df]; simpl is_empty; cbv iota.
  - exists 0, 0. split; [reflexivity|]. split; [reflexivity|]. split; [reflexivity|].
    unfold len. simpl. lia.
  - eexists _, _. split; [reflexivity|]. split; [reflexivity|]. split; [reflexivity|].
    split; [|split; [reflexivity|]].
    + unfold nunique, len.
      pose proof (length_remove_dups (omap id (map degree (r :: df)))).
      pose proof (length_omap_le id (map degree (r :: df))).
      rewrite length_map in *. lia.
    + unfold len. pose proof (length_List_filter
                                (fun r0 => 2024 <=? graduation_year r0) (r :: df)).
      lia.
Qed.

End StoreLookup.

(** * Properties of the queries *)

Section QueryProperties.

Context `{RT : PyRuntime} `{RX : PyRegex}.

Implicit Types (self : University) (df : list student_row).

Lemma List_filter_sublist {A : Type} (g : A -> bool) (l : list A) :
  List.filter g l `sublist_of` l.
Proof.
  induction l as [|x l IH]; simpl; [constructor|].
  destruct (g x); [apply sublist_skip|apply sublist_cons]; exact IH.
Qed.

Lemma elem_of_List_filter {A : Type} (g : A -> bool) (l : list A) (x : A) :
  x ∈ List.filter g l <-> x ∈ l /\ g x = true.
Proof. rewrite !list_elem_of_In. apply filter_In. Qed.

Lemma List_filter_ext_in {A : Type} (g h : A -> bool) (l : list A) :
  (forall x, x ∈ l -> g x = h x) -> List.filter g l = List.filter h l.
Proof.
  induction l as [|x l IH]; intros H; simpl; [reflexivity|].
  rewrite (H x) by left. rewrite IH; [reflexivity|].
  intros y Hy. apply H. right. exact Hy.
Qed.

Lemma List_filter_filter {A : Type} (g h : A -> bool) (l : list A) :
  List.filter g (List.filter h l) = List.filter (fun x => h x && g x) l.
Proof.
  induction l as [|x l IH]; simpl; [reflexivity|].
  destruct (h x); simpl; [destruct (g x)|]; rewrite IH; reflexivity.
Qed.

(** X6: [get_students_by_cgpa_range] returns, in store order, exactly
    the rows whose [cgpa] lies between the two bounds, both included; a
    row with a missing [cgpa] is never returned, and the result is empty
    when the lower bound is above the upper one. *)
Theorem X6_cgpa_range self (lo hi : float64) :
  float_order ->
  let rows := get_students_by_cgpa_range self lo hi in
  rows `sublist_of` students_df self
  /\ (forall r, r ∈ rows <->
                r ∈ students_df self
                /\ float_leb lo (cgpa r) = true /\ float_leb (cgpa r) hi = true)
  /\ Forall (fun r => isnan (cgpa r) = false) rows
  /\ (float_leb lo hi = false -> rows = []).
Proof.
  intros laws rows. unfold rows, get_students_by_cgpa_range.
  assert (Hin : forall r,
            r ∈ List.filter (in_cgpa_range lo hi) (students_df self) <->
            r ∈ students_df self
            /\ float_leb lo (cgpa r) = true /\ float_leb (cgpa r) hi = true).
  { intros r. rewrite elem_of_List_filter. unfold in_cgpa_range.
    rewrite andb_true_iff. reflexivity. }
  split; [apply List_filter_sublist|]. split; [exact Hin|]. split.
  - apply Forall_forall. intros r Hr. apply Hin in Hr as (_ & H & _).
    apply (leb_not_nan laws) in H. tauto.
  - intros Hcross.
    destruct (List.filter (in_cgpa_range lo hi) (students_df self)) as [|r l] eqn:E;
      [reflexivity|].
    assert (Hr : r ∈ r :: l) by left. apply Hin in Hr as (_ & H1 & H2).
    rewrite (leb_trans laws _ _ _ H1 H2) in Hcross. discriminate.
Qed.

(** X7: raising the year of [get_recent_graduates] only removes rows:
    the answer for a later year is the answer for an earlier year
    filtered once more, and with a year no graduation precedes the
    answer is the whole store. *)
Theorem X7_recent_graduates_monotone self (y1 y2 : Z) :
  y1 <= y2 ->
  get_recent_graduates self y2
  = List.filter (fun r => y2 <=? graduation_year r) (get_recent_graduates self y1)
  /\ get_recent_graduates self y2 `sublist_of` get_recent_graduates self y1
  /\ (Forall (fun r => y1 <= graduation_year r) (students_df self) ->
      get_recent_graduates self y1 = students_df self).
Proof.
  intros Hle. unfold get_recent_graduates.
  assert (E : List.filter (fun r => y2 <=? graduation_year r) (students_df self)
              = List.filter (fun r => y2 <=? graduation_year r)
                  (List.filter (fun r => y1 <=? graduation_year r) (students_df self))).
  { rewrite List_filter_filter. apply List_filter_ext_in. intros r _.
    destruct (y2 <=? graduation_year r) eqn:E2; [|rewrite andb_false_r; reflexivity].
    apply Z.leb_le in E2. rewrite andb_true_r. symmetry. apply Z.leb_le. lia. }
  split; [exact E|]. split.
  - rewrite E. apply List_filter_sublist.
  - intros Hall. clear E. induction Hall as [|r l Hr _ IH]; simpl; [reflexivity|].
    apply Z.leb_le in Hr. rewrite Hr, IH. reflexivity.
Qed.

(** X8: an exact search by name never raises and returns, in store
    order, the rows whose name is the given string; a partial search
    raises as soon as the string is not a regular expression, even on an
    empty store, and otherwise returns the rows whose name the
    expression is found in; rows without a name are never returned.
    [search_by_degree] raises on the same strings. *)
Theorem X8_search_by_name self (nm : string) :
  (exists rows,
     search_by_name self nm true = Ok rows
     /\ rows `sublist_of` students_df self
     /\ forall r, r ∈ rows <-> r ∈ students_df self /\ name r = Some nm)
  /\ (forall e, re_compile_ignorecase nm = Raise e ->
        search_by_name self nm false = Raise e
        /\ search_by_degree self nm = Raise e)
  /\ (forall rx, re_compile_ignorecase nm = Ok rx ->
        exists rows,
          search_by_name self nm false = Ok rows
          /\ rows `sublist_of` students_df self
          /\ forall r, r ∈ rows <->
                       r ∈ students_df self
                       /\ exists s, name r = Some s /\ re_search rx s = true).
Proof.
  unfold search_by_name. split; [|split].
  - eexists. split; [reflexivity|]. split; [apply List_filter_sublist|].
    intros r. rewrite elem_of_List_filter. unfold cell_equals.
    rewrite bool_decide_eq_true. reflexivity.
  - unfold search_by_degree. intros e ->. split; reflexivity.
  - intros rx ->. eexists. split; [reflexivity|]. split; [apply List_filter_sublist|].
    intros r. rewrite elem_of_List_filter. unfold cell_contains.
    destruct (name r) as [s|]; split.
    + intros [H1 H2]. eauto.
    + intros [H1 (s' & [= <-] & H2)]. auto.
    + intros [_ H]. discriminate.
    + intros [_ (s' & H & _)]. discriminate.
Qed.

Lemma result_mapM_ok {A B : Type} (f : A -> result B) (g : A -> B) (l : list A) :
  (forall a, f a = Ok (g a)) -> result_mapM f l = Ok (map g l).
Proof.
  intros H. induction l as [|a l IH]; simpl; [reflexivity|].
  rewrite H, IH. reflexivity.
Qed.

Lemma concat_nonempty (ls : list (list student_row)) :
  (if is_empty (List.filter (fun res => negb (is_empty res)) ls) then []
   else concat (List.filter (fun res => negb (is_empty res)) ls))
  = concat ls.
Proof.
  assert (E : concat (List.filter (fun res => negb (is_empty res)) ls) = concat ls).
  { induction ls as [|[|r res] ls IH]; simpl; [reflexivity|exact IH|].
    rewrite IH. reflexivity. }
  destruct (List.filter _ ls); [rewrite <- E|]; simpl; [reflexivity|exact E].
Qed.

(** X9: [search_student_by_name] returns the matching rows of all
    registered universities, university by university in registration
    order and in store order within each; it raises when the name is
    not a regular expression and a university is registered, and returns
    nothing, without compiling the name, when none is. *)
Theorem X9_search_student_by_name (self : ValidationSystem) (nm : string) :
  (universities self = [] -> search_student_by_name self nm = Ok [])
  /\ (forall rx, re_compile_ignorecase nm = Ok rx ->
        search_student_by_name self nm =
          Ok (concat (map (fun u => List.filter (fun r => cell_contains rx (name r))
                                      (students_df u))
                          (universities self))))
  /\ (forall e, re_compile_ignorecase nm = Raise e -> universities self <> [] ->
        search_student_by_name self nm = Raise e).
Proof.
  unfold search_student_by_name. split; [|split].
  - intros ->. reflexivity.
  - intros rx Hrx.
    rewrite (result_mapM_ok _
               (fun u => List.filter (fun r => cell_contains rx (name r)) (students_df u))).
    + simpl. rewrite concat_nonempty. reflexivity.
    + intros u. unfold search_by_name. rewrite Hrx. reflexivity.
  - intros e He Hne. destruct (universities self) as [|u unis]; [congruence|].
    cbn [result_mapM]. unfold search_by_name. rewrite He. reflexivity.
Qed.

End QueryProperties.

(** * Distribution of graduation years and file names *)

Section Distribution.

Context `{RT : PyRuntime}.

Lemma sumZ_perm (l l' : list Z) : l ≡ₚ l' -> sumZ l = sumZ l'.
Proof. unfold sumZ. induction 1; simpl; lia. Qed.

Lemma sumZ_add {A : Type} (g h : A -> Z) (l : list A) :
  sumZ (map (fun k => g k + h k) l) = sumZ (map g l) + sumZ (map h l).
Proof. unfold sumZ. induction l as [|x l IH]; simpl; lia. Qed.

Lemma count_cons (y x : Z) (col : list Z) :
  len (List.filter (Z.eqb y) (x :: col))
  = (if Z.eqb y x then 1 else 0) + len (List.filter (Z.eqb y) col).
Proof. simpl. destruct (Z.eqb y x); [rewrite len_cons|]; lia. Qed.

Lemma count_not_in (y : Z) (col : list Z) :
  y ∉ col -> len (List.filter (Z.eqb y) col) = 0.
Proof.
  induction col as [|x col IH]; intros H; [reflexivity|].
  rewrite count_cons. apply not_elem_of_cons in H as [Hne Hnin].
  apply Z.eqb_neq in Hne. rewrite Hne, IH by assumption. reflexivity.
Qed.

Lemma count_in (y : Z) (col : list Z) :
  y ∈ col -> 0 < len (List.filter (Z.eqb y) col).
Proof.
  induction col as [|x col IH]; intros H; [inversion H|].
  rewrite count_cons. pose proof (len_nonneg (List.filter (Z.eqb y) col)).
  apply elem_of_cons in H as [->|H].
  - rewrite Z.eqb_refl. lia.
  - specialize (IH H). destruct (Z.eqb y x); lia.
Qed.

Lemma indicator_sum (x : Z) (ks : list Z) :
  NoDup ks ->
  sumZ (map (fun k => if Z.eqb k x then 1 else 0) ks)
  = if bool_decide (x ∈ ks) then 1 else 0.
Proof.
  induction 1 as [|k ks Hk Hnd IH]; [reflexivity|].
  unfold sumZ in *. simpl. rewrite IH.
  destruct (Z.eqb k x) eqn:E.
  - apply Z.eqb_eq in E. subst k.
    rewrite (bool_decide_false (x ∈ ks)) by assumption.
    rewrite bool_decide_true by left. reflexivity.
  - apply Z.eqb_neq in E.
    destruct (bool_decide (x ∈ ks)) eqn:Ex.
    + apply bool_decide_eq_true in Ex. rewrite bool_decide_true by (right; exact Ex).
      reflexivity.
    + apply bool_decide_eq_false in Ex.
      rewrite bool_decide_false; [reflexivity|].
      intros [H|H]%elem_of_cons; [congruence|contradiction].
Qed.

Lemma counts_sum (col : list Z) :
  sumZ (map (fun k => len (List.filter (Z.eqb k) col)) (remove_dups col)) = len col.
Proof.
  induction col as [|x col IH]; [reflexivity|].
  assert (E : forall ks,
            sumZ (map (fun k => len (List.filter (Z.eqb k) (x :: col))) ks)
            = sumZ (map (fun k => if Z.eqb k x then 1 else 0) ks)
              + sumZ (map (fun k => len (List.filter (Z.eqb k) col)) ks)).
  { intros ks. rewrite <- sumZ_add. f_equal. apply map_ext. intros k. apply count_cons. }
  rewrite len_cons. simpl remove_dups.
  destruct (decide_rel elem_of x col) as [Hin|Hnin].
  - rewrite E, IH, indicator_sum by apply NoDup_remove_dups.
    rewrite bool_decide_true by (apply elem_of_remove_dups; exact Hin). lia.
  - cbn [map]. unfold sumZ at 1. cbn [fold_right]. fold (sumZ (map (fun k =>
      len (List.filter (Z.eqb k) (x :: col))) (remove_dups col))).
    rewrite E, IH, indicator_sum by apply NoDup_remove_dups.
    rewrite bool_decide_false by (rewrite elem_of_remove_dups; exact Hnin).
    rewrite count_cons, Z.eqb_refl, count_not_in by assumption. lia.
Qed.

Lemma StronglySorted_le_lt (l : list Z) :
  StronglySorted Z.le l -> NoDup l -> StronglySorted Z.lt l.
Proof.
  induction 1 as [|x l Hs IH Hall]; intros Hnd; [constructor|].
  apply NoDup_cons in Hnd as [Hx Hnd]. constructor; [auto|].
  apply Forall_forall. intros y Hy.
  rewrite Forall_forall in Hall. specialize (Hall y Hy).
  assert (x <> y) by (intros ->; contradiction). lia.
Qed.

Lemma map_fst_pair {A B : Type} (g : A -> B) (l : list A) :
  map fst (map (fun y => (y, g y)) l) = l.
Proof. induction l as [|x l IH]; simpl; [|rewrite IH]; reflexivity. Qed.

Lemma map_snd_pair {A B : Type} (g : A -> B) (l : list A) :
  map snd (map (fun y => (y, g y)) l) = map g l.
Proof. induction l as [|x l IH]; simpl; [|rewrite IH]; reflexivity. Qed.

(** X10: [get_graduation_year_distribution] lists the graduation years
    of the store in strictly increasing order, each once, with the
    number of rows of that year, which is positive; the counts add up to
    the number of rows. *)
Theorem X10_graduation_year_distribution (self : University) :
  let col := map graduation_year (students_df self) in
  let dist := get_graduation_year_distribution self in
  StronglySorted Z.lt (map fst dist)
  /\ (forall y c, (y, c) ∈ dist <-> y ∈ col /\ c = len (List.filter (Z.eqb y) col))
  /\ Forall (fun p => 0 < snd p) dist
  /\ fold_right Z.add 0 (map snd dist) = len (students_df self).
Proof.
  intros col dist. unfold dist, get_graduation_year_distribution, value_counts_sort_index.
  fold col.
  assert (Hmem : forall y c,
            (y, c) ∈ map (fun y => (y, len (List.filter (Z.eqb y) col)))
                       (merge_sort Z.le (remove_dups col))
            <-> y ∈ col /\ c = len (List.filter (Z.eqb y) col)).
  { intros y c. rewrite list_elem_of_fmap. split.
    - intros (k & [= -> ->] & Hk).
      rewrite merge_sort_Permutation, elem_of_remove_dups in Hk. auto.
    - intros [Hy ->]. exists y. split; [reflexivity|].
      rewrite merge_sort_Permutation, elem_of_remove_dups. exact Hy. }
  split; [|split; [exact Hmem|split]].
  - rewrite map_fst_pair. apply StronglySorted_le_lt.
    + apply StronglySorted_merge_sort; apply _.
    + rewrite merge_sort_Permutation. apply NoDup_remove_dups.
  - apply Forall_forall. intros [y c] Hp. apply Hmem in Hp as [Hy ->].
    simpl. apply count_in. exact Hy.
  - rewrite map_snd_pair.
    change (sumZ (map (fun y => len (List.filter (Z.eqb y) col))
                    (merge_sort Z.le (remove_dups col))) = len (students_df self)).
    rewrite (sumZ_perm _ (map (fun y => len (List.filter (Z.eqb y) col))
                            (remove_dups col))).
    + rewrite counts_sum. unfold col. apply len_map.
    + apply Permutation_map, merge_sort_Permutation.
Qed.

Lemma has_space_app (s t : string) :
  has_space (s +:+ t) = has_space s || has_space t.
Proof.
  induction s as [|c s IH]; simpl; [reflexivity|].
  rewrite IH. apply orb_assoc.
Qed.

Lemma has_space_replace (s : string) : has_space (replace_space s) = false.
Proof.
  induction s as [|c s IH]; simpl; [reflexivity|].
  rewrite IH. destruct (Ascii.eqb c " ") eqn:E; [reflexivity|].
  rewrite E. reflexivity.
Qed.

Lemma replace_space_idem (s : string) :
  replace_space (replace_space s) = replace_space s.
Proof.
  induction s as [|c s IH]; simpl; [reflexivity|].
  rewrite IH. destruct (Ascii.eqb c " ") eqn:E; [reflexivity|].
  rewrite E. reflexivity.
Qed.

(** X11: the files a university is saved and exported to by default
    have no space in their paths, and a name and the same name with its
    spaces replaced by underscores are saved to the same file; a path
    given by the caller is used as it is unless it is empty. *)
Theorem X11_default_csv_file (nm : string) :
  has_space (default_csv_file nm) = false
  /\ has_space (excel_file_of nm None) = false
  /\ default_csv_file (replace_space nm) = default_csv_file nm
  /\ (forall nm', replace_space nm' = replace_space nm ->
        csv_file_of nm' None = csv_file_of nm None)
  /\ (forall path, path <> "" -> csv_file_of nm (Some path) = path)
  /\ csv_file_of nm (Some "") = default_csv_file nm.
Proof.
  unfold csv_file_of, excel_file_of, default_csv_file.
  split; [|split; [|split; [|split; [|split]]]].
  - rewrite !has_space_app, has_space_replace. reflexivity.
  - rewrite !has_space_app, has_space_replace. reflexivity.
  - rewrite replace_space_idem. reflexivity.
  - intros nm' ->. reflexivity.
  - intros path H. destruct (decide (path = "")); [contradiction|reflexivity].
  - reflexivity.
Qed.

End Distribution.

(** * Further properties of the selection of top students *)

Section TopStudentsMore.

Context `{RT : PyRuntime}.

Lemma has_cgpa_nonempty (l : list student_row) :
  Exists (fun r => isnan (cgpa r) = false) l -> (1 <= length l)%nat.
Proof. destruct 1; simpl; lia. Qed.

(** X12: when some record of the store has a [cgpa] and [n] is at least
    the number of rows, [get_top_students n] returns every row of the
    store, each as often as the store holds it. *)
Theorem X12_top_students_all (self : University) (n : Z) :
  quicksort_order ->
  Exists (fun r => isnan (cgpa r) = false) (students_df self) ->
  len (students_df self) <= n ->
  exists rows, get_top_students self n = Ok rows /\ rows ≡ₚ students_df self.
Proof.
  intros sorting Hex Hn. unfold get_top_students, nlargest.
  rewrite (cgpa_dtype_float64 _ Hex).
  pose proof (has_cgpa_nonempty _ Hex) as Hlen. unfold len in Hn.
  destruct (n <=? 0) eqn:En; [apply Z.leb_le in En; lia|].
  destruct (Z.of_nat (length (students_df self)) <=? n) eqn:Ewhole;
    [|apply Z.leb_gt in Ewhole; lia].
  eexists. split; [reflexivity|].
  destruct (whole_sort_properties sorting (students_df self)) as (Hperm & _).
  rewrite take_ge by (rewrite Hperm; lia). exact Hperm.
Qed.

(** X13: on a store in which some record has a [cgpa], the selections
    of fewer rows than the store holds are nested: for
    [0 <= k <= n < size] the rows of [get_top_students k] are the first
    rows of [get_top_students n], in the same order. *)
Theorem X13_top_students_nested (self : University) (k n : Z) :
  Exists (fun r => isnan (cgpa r) = false) (students_df self) ->
  0 <= k <= n -> n < len (students_df self) ->
  exists rk rn,
    get_top_students self k = Ok rk /\ get_top_students self n = Ok rn
    /\ rk `prefix_of` rn.
Proof.
  intros Hex Hkn Hlt. unfold get_top_students, nlargest.
  rewrite (cgpa_dtype_float64 _ Hex). unfold len in Hlt.
  destruct (k <=? 0) eqn:Ek.
  - destruct (n <=? 0); [|destruct (Z.of_nat (length (students_df self)) <=? n)];
      do 2 eexists; (split; [reflexivity|]); (split; [reflexivity|]); apply prefix_nil.
  - apply Z.leb_gt in Ek.
    destruct (n <=? 0) eqn:En; [apply Z.leb_le in En; lia|].
    destruct (Z.of_nat (length (students_df self)) <=? k) eqn:Ewk;
      [apply Z.leb_le in Ewk; lia|].
    destruct (Z.of_nat (length (students_df self)) <=? n) eqn:Ewn;
      [apply Z.leb_le in Ewn; lia|].
    do 2 eexists. split; [reflexivity|]. split; [reflexivity|].
    replace (Z.to_nat k) with (Nat.min (Z.to_nat k) (Z.to_nat n)) at 1 by lia.
    rewrite <- take_take. apply prefix_take.
Qed.

End TopStudentsMore.

(** * Further properties of the validation system *)

Section SystemMore.

Context `{RT : PyRuntime}.

Implicit Types (self : ValidationSystem) (queue : list (string * string)).

Lemma analytics_block_empty (u : University) :
  students_df u = [] -> analytics_block u = Raise KeyError.
Proof.
  intros E. unfold analytics_block, get_statistics. rewrite E. reflexivity.
Qed.

(** With a row in the store the eight statistics are all read, and the
    block depends on the selection and on the names in it. *)
Lemma analytics_block_nonempty (u : University) :
  students_df u <> [] ->
  exists vals,
    analytics_block u =
      (top ← (top_3 ← get_top_students u 3; result_mapM format_top_student top_3);
       Ok {| b_name := uni_name u; b_stats := vals; b_top_3 := top |}).
Proof.
  intros Hne. unfold analytics_block, get_statistics.
  destruct (students_df u) as [|r df] eqn:E; [congruence|].
  eexists. reflexivity.
Qed.

Lemma all_nan_dtype (l : list student_row) :
  Forall (fun r => isnan (cgpa r) = true) l -> cgpa_dtype l = dt_object.
Proof.
  intros H. unfold cgpa_dtype.
  replace (forallb cgpa_isnan l) with true; [reflexivity|].
  symmetry. apply forallb_forall. intros r Hr. rewrite Forall_forall in H.
  apply H, list_elem_of_In, Hr.
Qed.

Lemma not_all_nan (l : list student_row) :
  cgpa_dtype l = dt_float64 -> Exists (fun r => isnan (cgpa r) = false) l.
Proof.
  unfold cgpa_dtype. induction l as [|r l IH]; simpl; [discriminate|].
  unfold cgpa_isnan at 1. destruct (isnan (cgpa r)) eqn:E; simpl.
  - intros H. apply Exists_cons_tl, IH, H.
  - intros _. apply Exists_cons_hd. exact E.
Qed.

Lemma get_top_students_ok_dtype (u : University) (n : Z) rows :
  get_top_students u n = Ok rows -> cgpa_dtype (students_df u) = dt_float64.
Proof.
  unfold get_top_students, nlargest.
  destruct (cgpa_dtype (students_df u)); [discriminate|reflexivity].
Qed.

Lemma get_top_students_subset (u : University) (n : Z) rows :
  quicksort_order ->
  get_top_students u n = Ok rows -> forall r, r ∈ rows -> r ∈ students_df u.
Proof.
  intros sorting. unfold get_top_students, nlargest.
  destruct (cgpa_dtype (students_df u)); [discriminate|].
  destruct (n <=? 0); [intros [= <-] r Hr; inversion Hr|].
  destruct (Z.of_nat (length (students_df u)) <=? n); intros [= <-] r Hr.
  - destruct (whole_sort_properties sorting (students_df u)) as (Hperm & _).
    rewrite <- Hperm. eapply elem_of_sublist; [exact Hr|apply sublist_take].
  - rewrite <- (dropped_nan_perm (students_df u)).
    rewrite <- (sort_desc_perm (List.filter cgpa_notnan (students_df u))).
    eapply elem_of_sublist; [exact Hr|apply sublist_take].
Qed.

Lemma format_top_students_ok (rows : list student_row) :
  Forall (fun r => is_Some (name r)) rows ->
  exists top, result_mapM format_top_student rows = Ok top.
Proof.
  induction 1 as [|r rows [s Hs] _ [top IH]]; cbn [result_mapM]; [eauto|].
  rewrite IH. unfold format_top_student. rewrite Hs. simpl. eauto.
Qed.

Lemma analytics_block_ok (u : University) :
  quicksort_order ->
  Exists (fun r => isnan (cgpa r) = false) (students_df u) ->
  Forall (fun r => is_Some (name r)) (students_df u) ->
  exists b, analytics_block u = Ok b.
Proof.
  intros sorting Hex Hnames.
  assert (Hne : students_df u <> []).
  { intros E. rewrite E in Hex. inversion Hex. }
  destruct (analytics_block_nonempty u Hne) as [vals ->].
  destruct (get_top_students u 3) as [top_3|e] eqn:Etop; simpl.
  - destruct (format_top_students_ok top_3) as [top ->]; [|simpl; eauto].
    apply Forall_forall. intros r Hr. rewrite Forall_forall in Hnames.
    apply Hnames. eapply get_top_students_subset; eassumption.
  - exfalso. unfold get_top_students, nlargest in Etop.
    rewrite (cgpa_dtype_float64 _ Hex) in Etop. simpl in Etop.
    destruct (Z.of_nat (length (students_df u)) <=? 3); discriminate.
Qed.

Lemma analytics_block_no_cgpa (u : University) :
  Forall (fun r => isnan (cgpa r) = true) (students_df u) ->
  analytics_block u = Raise KeyError \/ analytics_block u = Raise TypeError.
Proof.
  intros Hall. destruct (students_df u) as [|r df] eqn:E.
  - left. apply analytics_block_empty. exact E.
  - right. destruct (analytics_block_nonempty u) as [vals ->]; [congruence|].
    unfold get_top_students, nlargest. rewrite E, (all_nan_dtype _ Hall). reflexivity.
Qed.

Lemma analytics_block_inv (u : University) :
  quicksort_order ->
  (forall b, analytics_block u = Ok b ->
     Exists (fun r => isnan (cgpa r) = false) (students_df u))
  /\ (analytics_block u = Raise KeyError -> students_df u = [])
  /\ (analytics_block u = Raise ValueError ->
      Exists (fun r => name r = None) (students_df u)).
Proof.
  intros sorting. destruct (students_df u) as [|r0 df] eqn:E.
  - rewrite (analytics_block_empty u E).
    split; [discriminate|]. split; [reflexivity|discriminate].
  - destruct (analytics_block_nonempty u) as [vals ->]; [congruence|].
    destruct (get_top_students u 3) as [top_3|e] eqn:Etop; simpl.
    + pose proof (get_top_students_ok_dtype _ _ _ Etop) as Hdt. rewrite E in Hdt.
      destruct (result_mapM_spec format_top_student top_3)
        as [(top & -> & _)|(e & -> & Hex)]; simpl.
      * split; [intros _ _; apply not_all_nan, Hdt|]. split; discriminate.
      * split; [discriminate|]. split; [|intros _].
        -- intros [= ->]. apply Exists_exists in Hex as (r & _ & Hr).
           unfold format_top_student in Hr. destruct (name r); discriminate.
        -- apply Exists_exists in Hex as (r & Hin & Hr).
           apply Exists_exists. exists r. split.
           ++ rewrite <- E. eapply get_top_students_subset; eassumption.
           ++ unfold format_top_student in Hr. destruct (name r); [discriminate|].
              reflexivity.
    + apply get_top_students_raises in Etop as ->.
      split; [discriminate|]. split; discriminate.
Qed.

(** X14: [get_analytics] returns normally when every registered
    university has a student with a [cgpa] and every student has a name,
    and then reports the counters of the system, one block per
    university, and the success rate if a request has been submitted.
    It raises whenever some registered university has no student with a
    [cgpa], in particular no student at all.  A [KeyError] can only come
    from a university without students, a [ValueError] only from a
    university with a student without a name. *)
Theorem X14_analytics_needs_students self :
  quicksort_order ->
  (Forall (fun u => Exists (fun r => isnan (cgpa r) = false) (students_df u)
                    /\ Forall (fun r => is_Some (name r)) (students_df u))
     (universities self) ->
   exists a, get_analytics self = Ok a)
  /\ (forall a, get_analytics self = Ok a ->
        Forall (fun u => Exists (fun r => isnan (cgpa r) = false) (students_df u))
          (universities self)
        /\ a_universities a = len (universities self)
        /\ a_total_requests a = total_requests self
        /\ a_successful_validations a = successful_validations self
        /\ length (a_blocks a) = length (universities self)
        /\ a_success_rate a =
             if 0 <? total_requests self
             then Some (PTimes100 (PQuot (successful_validations self)
                                     (total_requests self)))
             else None)
  /\ (Exists (fun u => Forall (fun r => isnan (cgpa r) = true) (students_df u))
        (universities self) ->
      exists e, get_analytics self = Raise e)
  /\ (get_analytics self = Raise KeyError ->
      Exists (fun u => students_df u = []) (universities self))
  /\ (get_analytics self = Raise ValueError ->
      Exists (fun u => Exists (fun r => name r = None) (students_df u))
        (universities self)).
Proof.
  intros sorting.
  assert (Hrate : analytics_success_rate self =
                  Ok (if 0 <? total_requests self
                      then Some (PTimes100 (PQuot (successful_validations self)
                                              (total_requests self)))
                      else None)).
  { unfold analytics_success_rate. destruct (0 <? total_requests self) eqn:E;
      [|reflexivity].
    apply Z.ltb_lt in E. rewrite py_truediv_ok by lia. reflexivity. }
  unfold get_analytics. rewrite Hrate. simpl.
  destruct (result_mapM_spec analytics_block (universities self))
    as [(bs & -> & Hbs)|(e & -> & Hex)]; simpl.
  - split; [eauto|]. split; [|split; [|split; discriminate]].
    + intros a [= <-]. simpl. split.
      * apply Forall_forall. intros u Hu.
        apply list_elem_of_lookup in Hu as [i Hi].
        destruct (Forall2_lookup_l _ _ _ _ _ Hbs Hi) as (b & _ & Hb).
        destruct (analytics_block_inv u sorting) as (Hok & _). eapply Hok, Hb.
      * apply Forall2_length in Hbs. auto.
    + intros Hbad. exfalso. apply Exists_exists in Hbad as (u & Hu & Hall).
      apply list_elem_of_lookup in Hu as [i Hi].
      destruct (Forall2_lookup_l _ _ _ _ _ Hbs Hi) as (b & _ & Hb).
      destruct (analytics_block_no_cgpa u Hall) as [H|H]; congruence.
  - split; [|split; [discriminate|split; [eauto|split]]].
    + intros Hall. exfalso. apply Exists_exists in Hex as (u & Hu & Eu).
      rewrite Forall_forall in Hall. destruct (Hall u Hu) as [H1 H2].
      destruct (analytics_block_ok u sorting H1 H2) as [b Hb]. congruence.
    + intros [= ->]. apply Exists_exists in Hex as (u & Hu & Eu).
      apply Exists_exists. exists u. split; [exact Hu|].
      destruct (analytics_block_inv u sorting) as (_ & Hk & _). apply Hk, Eu.
    + intros [= ->]. apply Exists_exists in Hex as (u & Hu & Eu).
      apply Exists_exists. exists u. split; [exact Hu|].
      destruct (analytics_block_inv u sorting) as (_ & _ & Hv). apply Hv, Eu.
Qed.

Lemma len_concat_students (unis : list University) :
  len (concat (map students_df unis))
  = fold_right Z.add 0 (map (fun uni => len (students_df uni)) unis).
Proof.
  induction unis as [|u unis IH]; simpl; [reflexivity|].
  rewrite len_app, IH. reflexivity.
Qed.

Lemma statistics_row_complete (u : University) :
  Forall is_Some
    (map (fun k => (<["university" := SStr (uni_name u)]> (get_statistics u)) !! k)
       statistics_columns).
Proof.
  unfold get_statistics. destruct (students_df u) as [|r df]; simpl is_empty; cbv iota;
    repeat constructor; eexists; reflexivity.
Qed.

(** X15: [export_comprehensive_report] returns [False] and no report
    when the workbook cannot be written; otherwise it returns [True] in
    every state, with the history as it is, all students of all
    universities (as many rows as the summary's total), one statistics
    row of seven present values per university, and the counters of the
    system in the summary. *)
Theorem X15_export_report self :
  export_comprehensive_report self false = (false, None)
  /\ exists rep rate,
       export_comprehensive_report self true = (true, Some rep)
       /\ sheet_validation_history rep = validation_history self
       /\ len (sheet_all_students rep) = total_students self
       /\ length (sheet_statistics rep) = length (universities self)
       /\ Forall (fun row => length row = 7%nat /\ Forall is_Some row)
            (sheet_statistics rep)
       /\ sheet_system_summary rep =
            [ ("Total Universities", PInt (len (universities self)));
              ("Total Students", PInt (total_students self));
              ("Total Validation Requests", PInt (total_requests self));
              ("Successful Validations", PInt (successful_validations self));
              ("Success Rate (%)", PRound2 rate) ]
       /\ rate = if 0 <? total_requests self
                 then PTimes100 (PQuot (successful_validations self)
                                   (total_requests self))
                 else PInt 0.
Proof.
  split; [reflexivity|].
  assert (Hrate : export_success_rate self =
                  Ok (PRound2 (if 0 <? total_requests self
                               then PTimes100 (PQuot (successful_validations self)
                                                 (total_requests self))
                               else PInt 0))).
  { unfold export_success_rate. destruct (0 <? total_requests self) eqn:E;
      [|reflexivity].
    apply Z.ltb_lt in E. rewrite py_truediv_ok by lia. reflexivity. }
  unfold export_comprehensive_report. simpl. rewrite Hrate. simpl.
  eexists _, _. split; [reflexivity|]. simpl.
  split; [reflexivity|]. split; [apply len_concat_students|].
  split; [rewrite !length_map; reflexivity|].
  split; [|split; reflexivity].
  apply Forall_forall. intros row Hrow.
  apply list_elem_of_fmap in Hrow as (stats & -> & Hstats).
  apply list_elem_of_fmap in Hstats as (u & -> & _).
  split; [reflexivity|apply statistics_row_complete].
Qed.

Lemma successes_app (a b : list history_row) :
  successes (a ++ b) = successes a + successes b.
Proof. unfold successes. rewrite List.filter_app, len_app. reflexivity. Qed.

Lemma expected_history_ids (unis : list University) (total : Z) queue :
  map request_id (expected_history unis total queue)
  = seqZ (total - len queue + 1) (len queue).
Proof.
  induction queue as [|[sid req] rest IH]; [reflexivity|].
  cbn [expected_history map request_id]. rewrite IH, len_cons.
  pose proof (len_nonneg rest).
  rewrite (seqZ_cons (total - (len rest + 1) + 1)) by lia.
  f_equal; [lia|]. f_equal; lia.
Qed.

Lemma len_expected_history (unis : list University) (total : Z) queue :
  len (expected_history unis total queue) = len queue.
Proof.
  induction queue as [|[sid req] rest IH]; [reflexivity|].
  cbn [expected_history]. rewrite !len_cons, IH. reflexivity.
Qed.

Lemma while_queue_successes queue self :
  successful_validations (while_queue queue self)
  = successful_validations self
    + successes (expected_history (universities self) (total_requests self) queue).
Proof.
  revert self. induction queue as [|[sid req] rest IH]; intros self.
  - simpl. unfold successes, len. simpl. lia.
  - cbn [while_queue expected_history]. rewrite IH. cbn [universities total_requests
      successful_validations].
    change (?x :: ?l) with ([x] ++ l) at 1. rewrite successes_app.
    pose proof (for_universities_spec (universities self) sid
                  (successful_validations self)) as H. simpl in H.
    unfold successes at 2, outcome. cbn [List.filter status].
    destruct (first_match (universities self) sid) as [u|].
    + destruct H as (_ & _ & ->). cbn. unfold len. simpl. lia.
    + destruct H as (_ & _ & -> & _). cbn. unfold len. simpl. lia.
Qed.

Lemma process_validations_successes self :
  successful_validations (fst (process_validations self))
  = successful_validations self
    + successes (expected_history (universities self) (total_requests self)
                   (validation_queue self)).
Proof.
  unfold process_validations.
  destruct (validation_queue self) as [|p rest] eqn:Eq; simpl is_empty; cbv iota.
  - simpl. unfold successes, len. simpl. lia.
  - cbn [fst]. apply while_queue_successes.
Qed.

Lemma reachable_history self :
  reachable self ->
  len (validation_history self) + len (validation_queue self) = total_requests self
  /\ map request_id (validation_history self) = seqZ 1 (len (validation_history self))
  /\ successful_validations self = successes (validation_history self).
Proof.
  induction 1 as [|self o _ (IH1 & IH2 & IH3)].
  - split; [reflexivity|]. split; reflexivity.
  - destruct o; simpl; try (split; [|split]; assumption).
    + rewrite len_app. split; [|split; assumption].
      change (len [(sid, req)]) with 1. lia.
    + rewrite request_validations_bulk_spec. simpl. rewrite len_app, len_map.
      split; [lia|split; assumption].
    + destruct (process_validations_spec self) as (_ & -> & -> & _ & ->).
      rewrite process_validations_successes.
      pose proof (len_nonneg (validation_history self)).
      pose proof (len_nonneg (validation_queue self)).
      rewrite len_app, len_expected_history, map_app, successes_app, IH2,
        expected_history_ids.
      split; [change (len []) with 0; lia|]. split; [|lia].
      rewrite seqZ_app by lia. f_equal. f_equal. lia.
Qed.

(** X16: in every reachable state the rows of the history and the
    queued requests together are as many as [total_requests], and the
    [request_id]s of the history are 1, 2, 3, ... in row order. *)
Theorem X16_request_ids_number_the_history self :
  reachable self ->
  len (validation_history self) + len (validation_queue self) = total_requests self
  /\ map request_id (validation_history self)
     = seqZ 1 (len (validation_history self)).
Proof. intros H. destruct (reachable_history self H) as (H1 & H2 & _). auto. Qed.

(** X17: in every reachable state [successful_validations] is the number
    of history rows whose status is "Success". *)
Theorem X17_successful_counts_success_rows self :
  reachable self ->
  successful_validations self = successes (validation_history self).
Proof. intros H. destruct (reachable_history self H) as (_ & _ & H3). exact H3. Qed.

(** X18: [process_validations] leaves the registered universities and
    [total_requests] as they are, and a second call right after the
    first finds nothing to do: it returns normally and changes
    nothing. *)
Theorem X18_process_twice self :
  let once := fst (process_validations self) in
  universities once = universities self
  /\ total_requests once = total_requests self
  /\ process_validations once = (once, Ok tt).
Proof.
  intros once. destruct (process_validations_spec self) as (H1 & H2 & H3 & _).
  fold once in H1, H2, H3. split; [exact H1|]. split; [exact H3|].
  unfold process_validations. rewrite H2. reflexivity.
Qed.

End SystemMore.

(** * Repeated ids and the rows a selection leaves out *)

Section MoreStoreProperties.

Context `{RT : PyRuntime}.

Implicit Types (self : University) (sid : string).

Lemma index_contains_filter (df : list student_row) sid :
  index_contains df sid = true ->
  (1 <= length (filter (fun r => student_id r = Some sid) df))%nat.
Proof.
  intros H. apply index_contains_true in H as (r & Hr & Hid).
  assert (Hin : r ∈ filter (fun r => student_id r = Some sid) df).
  { apply list_elem_of_filter. auto. }
  destruct (filter _ df); [inversion Hin|simpl; lia].
Qed.

Lemma verify_student_many self sid :
  (2 <= length (filter (fun r => student_id r = Some sid) (students_df self)))%nat ->
  verify_student self sid = None.
Proof.
  intros H. rewrite verify_student_filter.
  destruct (filter _ (students_df self)) as [|r [|r' l]]; simpl in H; [lia|lia|reflexivity].
Qed.

(** X19: a successful [add_student] under an id the store already holds
    makes that id unverifiable, and an id held by two rows or more stays
    unverifiable whatever is added afterwards, one student at a time or
    in bulk: nothing removes a row. *)
Theorem X19_repeated_id_stays_unverified self sid :
  (forall nm deg cg yr today self',
     index_contains (students_df self) sid = true ->
     add_student self sid nm deg cg yr today = (self', true) ->
     verify_student self' sid = None)
  /\ ((2 <= length (filter (fun r => student_id r = Some sid) (students_df self)))%nat ->
      (forall sid' nm deg cg yr today,
         verify_student (fst (add_student self sid' nm deg cg yr today)) sid = None)
      /\ (forall l today,
            verify_student (fst (add_students_bulk self l today)) sid = None)).
Proof.
  split.
  - intros nm deg cg yr today self' Hin Hadd.
    destruct (add_student_cases self sid nm deg cg yr today)
      as [(c & y & _ & _ & E)|E]; rewrite E in Hadd; [|discriminate].
    injection Hadd as <-. apply verify_student_many. simpl.
    rewrite filter_app, length_app, filter_cons. simpl.
    rewrite decide_True by reflexivity. simpl.
    pose proof (index_contains_filter _ _ Hin). lia.
  - intros Hmany. split.
    + intros sid' nm deg cg yr today.
      destruct (add_student_cases self sid' nm deg cg yr today)
        as [(c & y & _ & _ & ->)| ->]; simpl; apply verify_student_many; [|exact Hmany].
      simpl. rewrite filter_app, length_app. lia.
    + intros l today.
      destruct (add_students_bulk_cases self l today)
        as [(cgpas & years & _ & _ & ->)| ->]; simpl; apply verify_student_many;
        [|exact Hmany].
      simpl. rewrite filter_app, length_app. lia.
Qed.

(** X20: [add_students_bulk], accepted or not, does not change what
    [verify_student] returns for an id that no dictionary of the batch
    carries. *)
Theorem X20_bulk_keeps_other_ids self (l : list student_dict) today sid :
  filter (fun d => d_student_id d = Some sid) l = [] ->
  verify_student (fst (add_students_bulk self l today)) sid = verify_student self sid.
Proof.
  intros Hnone.
  destruct (add_students_bulk_cases self l today)
    as [(cgpas & years & _ & _ & ->)| ->]; [|reflexivity].
  rewrite !verify_student_filter. simpl.
  rewrite filter_app, (assemble_filter_nil _ _ _ _ _ _ Hnone), app_nil_r. reflexivity.
Qed.

(** X21: [get_top_students] selects from the top: on a store in which
    some record has a [cgpa], the rows of the store split into the
    selection and the rows left out, and no row left out may stand
    before a selected row, that is, a row left out has a missing [cgpa]
    or a [cgpa] no greater than that of every selected row. *)
Theorem X21_top_students_dominate self (n : Z) :
  float_order -> quicksort_order ->
  Exists (fun r => isnan (cgpa r) = false) (students_df self) -> 0 <= n ->
  exists rows rest,
    get_top_students self n = Ok rows
    /\ rows ++ rest ≡ₚ students_df self
    /\ forall r r', r ∈ rows -> r' ∈ rest -> cgpa_desc r r'.
Proof.
  intros laws sorting Hex Hn. unfold get_top_students, nlargest.
  rewrite (cgpa_dtype_float64 _ Hex).
  destruct (n <=? 0) eqn:En.
  - exists [], (students_df self). split; [reflexivity|]. split; [reflexivity|].
    intros r r' Hr. inversion Hr.
  - destruct (Z.of_nat (length (students_df self)) <=? n).
    + set (sorted := quicksort_desc student_row cgpa
                       (List.filter cgpa_notnan (students_df self))
                       ++ List.filter cgpa_isnan (students_df self)).
      destruct (whole_sort_properties sorting (students_df self)) as (Hperm & Hs & _).
      fold sorted in Hperm, Hs.
      exists (firstn (Z.to_nat n) sorted), (skipn (Z.to_nat n) sorted).
      split; [reflexivity|]. split; [rewrite firstn_skipn; exact Hperm|].
      rewrite <- (firstn_skipn (Z.to_nat n) sorted) in Hs.
      intros r r'. apply (StronglySorted_app_1_elem_of _ _ _ r r' Hs).
    + set (sorted := sort_desc (List.filter cgpa_notnan (students_df self))
                       ++ List.filter cgpa_isnan (students_df self)).
      exists (firstn (Z.to_nat n) sorted), (skipn (Z.to_nat n) sorted).
      split; [reflexivity|]. split.
      * rewrite firstn_skipn. unfold sorted. rewrite sort_desc_perm.
        apply dropped_nan_perm.
      * assert (Hs : StronglySorted cgpa_desc sorted).
        { unfold sorted. apply StronglySorted_app_2.
          - intros x1 x2 _ H2. left.
            apply list_elem_of_In, filter_In in H2 as [_ H2]. exact H2.
          - apply ge_sorted_desc, (sort_desc_sorted laws), filter_all_notnan.
          - apply nan_rows_sorted. }
        rewrite <- (firstn_skipn (Z.to_nat n) sorted) in Hs.
        intros r r'. apply (StronglySorted_app_1_elem_of _ _ _ r r' Hs).
Qed.

End MoreStoreProperties.

(** * Further concrete runs on the sample runtime *)

Example year_distribution_of_three :
  get_graduation_year_distribution Sample.mit_3 = [(2023, 2); (2024, 1)].
Proof. vm_compute. reflexivity. Qed.

Example range_of_three :
  map student_id
    (get_students_by_cgpa_range Sample.mit_3
       (Sample.Finite (Qmake 30 10)) (Sample.Finite (Qmake 36 10)))
  = [Some "S1"; Some "S3"].
Proof. reflexivity. Qed.

Example default_csv_file_collision :
  default_csv_file "UC Berkeley" = "data/UC_Berkeley_students.csv"
  /\ default_csv_file "UC_Berkeley" = "data/UC_Berkeley_students.csv".
Proof. split; reflexivity. Qed.

(** X2 at a concrete input: a second id added after a first. *)
Lemma X2_add_student_keeps_other_ids_witness :
  "S2" <> "S1"
  /\ verify_student
       (fst (add_student Sample.mit_1 "S2" "Bob" "EE" (Sample.f 39 10)
               (Sample.Int 2024) Sample.today)) "S1"
     = verify_student Sample.mit_1 "S1".
Proof.
  assert (H : "S2" <> "S1") by discriminate.
  split; [exact H|].
  apply (X2_add_student_keeps_other_ids Sample.mit_1 "S2" "Bob" "EE" (Sample.f 39 10)
           (Sample.Int 2024) Sample.today "S1" H).
Defined.

(** X3 at a concrete input: a store with one student. *)
Lemma X3_rows_carry_store_name_witness :
  Forall (fun r => university r = uni_name Sample.mit_1) (students_df Sample.mit_1)
  /\ Forall (fun r => university r = "MIT")
       (students_df (fst (add_students_bulk Sample.mit_1 Sample.batch_partial
                            Sample.today))).
Proof.
  assert (H : Forall (fun r => university r = uni_name Sample.mit_1)
                (students_df Sample.mit_1)).
  { repeat constructor. }
  split; [exact H|].
  destruct (X3_rows_carry_store_name Sample.mit_1 H) as [_ Hb].
  destruct (Hb Sample.batch_partial Sample.today) as [_ Hrows]. exact Hrows.
Defined.

(** X4 at a concrete input: a batch of two, verified for the id of its
    first dictionary. *)
Lemma X4_verify_after_bulk_witness :
  let self' := fst (add_students_bulk Sample.mit Sample.batch_partial Sample.today) in
  let d := {| d_student_id := Some "S1"; d_name := Some "Alice";
              d_degree := Some "CS"; d_cgpa := Some (Sample.f 35 10);
              d_graduation_year := Some (Sample.Int 2023) |} in
  add_students_bulk Sample.mit Sample.batch_partial Sample.today = (self', true)
  /\ index_contains (students_df Sample.mit) "S1" = false
  /\ filter (fun d => d_student_id d = Some "S1") Sample.batch_partial = [d]
  /\ exists c y,
       verify_student self' "S1" = Some (row_of_dict (uni_name Sample.mit) Sample.today d c y)
       /\ match d_cgpa d with
          | Some o => np_float o = Ok c
          | None => c = nan
          end
       /\ exists o, d_graduation_year d = Some o /\ np_int o = Ok y.
Proof.
  intros self' d.
  split; [reflexivity|]. split; [reflexivity|]. split; [reflexivity|].
  apply (X4_verify_after_bulk Sample.mit Sample.batch_partial Sample.today "S1" d self');
    reflexivity.
Defined.

(** X6 at a concrete input: three students, a range that holds two. *)
Lemma X6_cgpa_range_witness :
  float_order (RT := Sample.runtime)
  /\ Forall (fun r => isnan (cgpa r) = false)
       (get_students_by_cgpa_range Sample.mit_3
          (Sample.Finite (Qmake 30 10)) (Sample.Finite (Qmake 36 10)))
  /\ (float_leb (Sample.Finite (Qmake 36 10)) (Sample.Finite (Qmake 30 10)) = false ->
      get_students_by_cgpa_range Sample.mit_3
        (Sample.Finite (Qmake 36 10)) (Sample.Finite (Qmake 30 10)) = []).
Proof.
  split; [exact sample_float_order|]. split.
  - destruct (X6_cgpa_range Sample.mit_3 (Sample.Finite (Qmake 30 10))
                (Sample.Finite (Qmake 36 10)) sample_float_order) as (_ & _ & H & _).
    exact H.
  - destruct (X6_cgpa_range Sample.mit_3 (Sample.Finite (Qmake 36 10))
                (Sample.Finite (Qmake 30 10)) sample_float_order) as (_ & _ & _ & H).
    exact H.
Defined.

(** X7 at a concrete input: the graduates since 2024 among those since
    2023. *)
Lemma X7_recent_graduates_monotone_witness :
  2023 <= 2024
  /\ get_recent_graduates Sample.mit_3 2024
       `sublist_of` get_recent_graduates Sample.mit_3 2023.
Proof.
  assert (H : 2023 <= 2024) by lia.
  split; [exact H|].
  destruct (X7_recent_graduates_monotone Sample.mit_3 2023 2024 H) as (_ & Hs & _).
  exact Hs.
Defined.

Lemma sample_has_cgpa :
  Exists (fun r => isnan (cgpa r) = false) (students_df Sample.mit_3).
Proof. apply Exists_cons_hd. reflexivity. Qed.

(** X12 at a concrete input: the top five of three students. *)
Lemma X12_top_students_all_witness :
  quicksort_order (RT := Sample.runtime)
  /\ Exists (fun r => isnan (cgpa r) = false) (students_df Sample.mit_3)
  /\ len (students_df Sample.mit_3) <= 5
  /\ exists rows,
       get_top_students Sample.mit_3 5 = Ok rows /\ rows ≡ₚ students_df Sample.mit_3.
Proof.
  assert (H2 : len (students_df Sample.mit_3) <= 5) by (vm_compute; discriminate).
  split; [exact sample_quicksort_order|]. split; [exact sample_has_cgpa|].
  split; [exact H2|].
  apply (X12_top_students_all Sample.mit_3 5 sample_quicksort_order sample_has_cgpa H2).
Defined.

(** X13 at a concrete input: the top one and the top two of three
    students. *)
Lemma X13_top_students_nested_witness :
  Exists (fun r => isnan (cgpa r) = false) (students_df Sample.mit_3)
  /\ 0 <= 1 <= 2 /\ 2 < len (students_df Sample.mit_3)
  /\ exists rk rn,
       get_top_students Sample.mit_3 1 = Ok rk /\ get_top_students Sample.mit_3 2 = Ok rn
       /\ rk `prefix_of` rn.
Proof.
  assert (H2 : 0 <= 1 <= 2) by lia.
  assert (H3 : 2 < len (students_df Sample.mit_3)) by reflexivity.
  split; [exact sample_has_cgpa|]. split; [exact H2|]. split; [exact H3|].
  apply (X13_top_students_nested Sample.mit_3 1 2 sample_has_cgpa H2 H3).
Defined.

(** X14 at a concrete input: one registered university with one named
    student, and one with a student without a name. *)
Lemma X14_analytics_needs_students_witness :
  quicksort_order (RT := Sample.runtime)
  /\ (exists a,
        get_analytics (register_university ValidationSystem_init Sample.mit_1) = Ok a)
  /\ get_analytics (register_university ValidationSystem_init Sample.mit_no_name)
     = Raise ValueError.
Proof.
  split; [exact sample_quicksort_order|]. split; [|reflexivity].
  destruct (X14_analytics_needs_students
              (register_university ValidationSystem_init Sample.mit_1)
              sample_quicksort_order) as [Hok _].
  apply Hok. repeat constructor. eexists. reflexivity.
Defined.

Lemma sample_system_reachable :
  reachable (fst (process_validations Sample.system_1)).
Proof.
  apply (reachable_exec _ ProcessValidations).
  apply (reachable_exec _ (RequestValidation "S1" "Acme")).
  apply (reachable_exec _ (Register Sample.mit_1)).
  apply reachable_init.
Qed.

(** X16 at a concrete input: one request, processed. *)
Lemma X16_request_ids_number_the_history_witness :
  let s := fst (process_validations Sample.system_1) in
  reachable s
  /\ len (validation_history s) + len (validation_queue s) = total_requests s
  /\ map request_id (validation_history s) = seqZ 1 (len (validation_history s)).
Proof.
  intros s. split; [exact sample_system_reachable|].
  apply (X16_request_ids_number_the_history s sample_system_reachable).
Defined.

(** X17 at a concrete input: one request, processed and found. *)
Lemma X17_successful_counts_success_rows_witness :
  let s := fst (process_validations Sample.system_1) in
  reachable s /\ successful_validations s = successes (validation_history s).
Proof.
  intros s. split; [exact sample_system_reachable|].
  apply (X17_successful_counts_success_rows s sample_system_reachable).
Defined.

(** X19 at a concrete input: a third student added to a store that
    holds an id twice. *)
Lemma X19_repeated_id_stays_unverified_witness :
  (2 <= length (filter (fun r => student_id r = Some "S1") (students_df Sample.mit_2)))%nat
  /\ verify_student
       (fst (add_student Sample.mit_2 "S2" "Bob" "EE" (Sample.f 39 10)
               (Sample.Int 2024) Sample.today)) "S1" = None.
Proof.
  assert (H : (2 <= length (filter (fun r => student_id r = Some "S1")
                              (students_df Sample.mit_2)))%nat).
  { vm_compute. lia. }
  split; [exact H|].
  destruct (X19_repeated_id_stays_unverified Sample.mit_2 "S1") as [_ Hmany].
  destruct (Hmany H) as [Hadd _].
  apply (Hadd "S2" "Bob" "EE" (Sample.f 39 10) (Sample.Int 2024) Sample.today).
Defined.

(** X20 at a concrete input: a batch that does not mention the id of
    the stored student. *)
Lemma X20_bulk_keeps_other_ids_witness :
  filter (fun d => d_student_id d = Some "S9") Sample.batch_partial = []
  /\ verify_student
       (fst (add_students_bulk Sample.mit_1 Sample.batch_partial Sample.today)) "S9"
     = verify_student Sample.mit_1 "S9".
Proof.
  assert (H : filter (fun d => d_student_id d = Some "S9") Sample.batch_partial = [])
    by reflexivity.
  split; [exact H|].
  apply (X20_bulk_keeps_other_ids Sample.mit_1 Sample.batch_partial Sample.today "S9" H).
Defined.

(** X21 at a concrete input: the top two of three students. *)
Lemma X21_top_students_dominate_witness :
  float_order (RT := Sample.runtime) /\ quicksort_order (RT := Sample.runtime)
  /\ Exists (fun r => isnan (cgpa r) = false) (students_df Sample.mit_3) /\ 0 <= 2
  /\ exists rows rest,
       get_top_students Sample.mit_3 2 = Ok rows
       /\ rows ++ rest ≡ₚ students_df Sample.mit_3
       /\ forall r r', r ∈ rows -> r' ∈ rest -> cgpa_desc r r'.
Proof.
  assert (H2 : 0 <= 2) by lia.
  split; [exact sample_float_order|]. split; [exact sample_quicksort_order|].
  split; [exact sample_has_cgpa|]. split; [exact H2|].
  apply (X21_top_students_dominate Sample.mit_3 2 sample_float_order
           sample_quicksort_order sample_has_cgpa H2).
Defined.
